(** * Multi-Mode Digital Logic Educational Kit: a shallow embedding of
      [GroupProject.ino] and the properties of its four modes.

    The sketch is a polling loop over global variables.  Its globals, the
    character display and the 74HC595 shift register form one [State]
    record; the sketch's functions are computations in a small state monad
    whose second outcome, [Undefined], records a read past the end of an
    array.  The readings of one pass of [loop()] (switches, mode button,
    both analog lines, the millisecond counter and the random-number
    generator) form one [Env]. *)

From Stdlib Require Import ZArith List String Ascii Bool Lia.
Import ListNotations.
Open Scope Z_scope.

(* ================================================================== *)
(** * Part I: definitions                                              *)
(* ================================================================== *)

(** ** The Arduino core functions the sketch calls

    These belong to the platform, not to the sketch: [map] and [random] are
    those of the core's WMath.cpp, the number printing is that of its
    Print.cpp. *)

Module Arduino.

Definition HIGH : bool := true.
Definition LOW : bool := false.

Definition DEC : Z := 10.
Definition HEX : Z := 16.
Definition LSBFIRST : Z := 0.

(** Analog pin numbers of the ATmega328 boards. *)
Definition A1 : Z := 15.
Definition A2 : Z := 16.

(** [byte] is [uint8_t], [unsigned long] has 32 bits, [long] is its
    two's complement reading. *)
Definition to_byte (z : Z) : Z := z mod 256.
Definition to_ulong (z : Z) : Z := z mod 2 ^ 32.
Definition to_long (z : Z) : Z := (z + 2 ^ 31) mod 2 ^ 32 - 2 ^ 31.

(** [long map(long x, long in_min, long in_max, long out_min, long out_max)]
    is [(x - in_min) * (out_max - out_min) / (in_max - in_min) + out_min],
    in [long] arithmetic with C's truncating division. *)
Definition map (x in_min in_max out_min out_max : Z) : Z :=
  to_long
    (Z.quot (to_long (to_long (x - in_min) * to_long (out_max - out_min)))
            (to_long (in_max - in_min))
     + out_min).

(** [Print::printNumber(unsigned long n, uint8_t base)]: the digits are
    produced from the least significant one into a buffer of
    [8 * sizeof(long)] characters, letters in upper case. *)
Definition digitChar (c : Z) : ascii :=
  if c <? 10 then ascii_of_nat (Z.to_nat (c + 48))
  else ascii_of_nat (Z.to_nat (c + 65 - 10)).

Fixpoint printNumber_loop (fuel : nat) (n base : Z) (str : string) : string :=
  match fuel with
  | O => str
  | S fuel' =>
      let c := n mod base in
      let n' := n / base in
      let str' := String (digitChar c) str in
      if n' =? 0 then str' else printNumber_loop fuel' n' base str'
  end.

Definition printNumber (n base : Z) : string :=
  let base := if base <? 2 then 10 else base in
  printNumber_loop 32 (to_ulong n) base EmptyString.

(** [Print::print(long n, int base)], reached from [print(int)]: a minus
    sign in base 10 only. The sketch never passes base 0. *)
Definition print_long (n base : Z) : string :=
  if base =? 10 then
    if n <? 0 then String "-"%char (printNumber (- n) 10)
    else printNumber n 10
  else printNumber n base.

(** [Print::print(unsigned char b, int base)]. *)
Definition print_uchar (b base : Z) : string := printNumber (to_byte b) base.

(** [long random(long howsmall, long howbig)] over the value [raw] that
    the C library's [random()] returns, in [0, RANDOM_MAX]. *)
Definition RANDOM_MAX : Z := 2 ^ 31 - 1.

Definition random_below (howbig raw : Z) : Z :=
  if howbig =? 0 then 0 else Z.rem raw howbig.

Definition random (howsmall howbig raw : Z) : Z :=
  if howbig <=? howsmall then howsmall
  else random_below (howbig - howsmall) raw + howsmall.

End Arduino.

(** ** The display: two rows of sixteen visible cells and a cursor

    The LiquidCrystal_I2C object [lcd(0x27, 16, 2)] by its contract: text
    overwrites the cells from the cursor on, nothing else is erased.  The
    sketch never sends more than sixteen characters to a row. *)

Module Lcd.

Record t : Type := mk
  { row0 : list ascii;
    row1 : list ascii;
    col : nat;
    row : nat }.

Definition blank : list ascii := repeat " "%char 16.

(** A row as it comes out of [init()] or [clear()] has sixteen cells. *)
Definition wf (d : t) : Prop :=
  List.length (row0 d) = 16%nat /\ List.length (row1 d) = 16%nat.

(** [init()] and [clear()] blank the display and home the cursor. *)
Definition clear (d : t) : t := mk blank blank 0 0.

(** [setCursor(col, row)] of a two-line display: row 2 addresses the
    hidden cells of the first line from column 20 on, a larger row number
    is taken as the last line. *)
Definition setCursor (c r : nat) (d : t) : t :=
  match r with
  | 0%nat => mk (row0 d) (row1 d) c 0
  | 1%nat => mk (row0 d) (row1 d) c 1
  | 2%nat => mk (row0 d) (row1 d) (c + 20) 0
  | _ => mk (row0 d) (row1 d) c 1
  end.

(** A character written past the last visible cell is not shown. *)
Fixpoint put (c : nat) (ch : ascii) (l : list ascii) : list ascii :=
  match l, c with
  | [], _ => []
  | _ :: rest, O => ch :: rest
  | h :: rest, S c' => h :: put c' ch rest
  end.

Definition write (ch : ascii) (d : t) : t :=
  match row d with
  | O => mk (put (col d) ch (row0 d)) (row1 d) (S (col d)) (row d)
  | _ => mk (row0 d) (put (col d) ch (row1 d)) (S (col d)) (row d)
  end.

Definition print (s : string) (d : t) : t :=
  fold_left (fun d ch => write ch d) (list_ascii_of_string s) d.

(** [setCursor(0, 0); print(t0); setCursor(0, 1); print(t1);] *)
Definition render (t0 t1 : string) (d : t) : t :=
  print t1 (setCursor 0 1 (print t0 (setCursor 0 0 d))).

(** What a text written from the first column leaves on a row. *)
Fixpoint overlay (text cells : list ascii) : list ascii :=
  match text, cells with
  | _, [] => []
  | [], _ => cells
  | a :: text', _ :: cells' => a :: overlay text' cells'
  end.

End Lcd.

(** ** The 74HC595 behind the eight LEDs *)

Module ShiftRegister.

Record t : Type := mk
  { latch : bool;     (* level of the latch pin *)
    shifted : Z;      (* byte held by the shift stage *)
    outputs : Z }.    (* byte on the output pins, that is, on the LEDs *)

(** [shiftOut(dataPin, clockPin, LSBFIRST, val)] clocks the eight bits of
    [val] into the shift stage. *)
Definition shiftOut (val : Z) (r : t) : t :=
  mk (latch r) (Arduino.to_byte val) (outputs r).

(** A rising edge of the latch pin copies the shift stage to the
    outputs. *)
Definition setLatch (v : bool) (r : t) : t :=
  mk v (shifted r) (if negb (latch r) && v then shifted r else outputs r).

(** [digitalWrite(latchPin, LOW); shiftOut(.., val); digitalWrite(latchPin,
    HIGH);] *)
Definition push (val : Z) (r : t) : t :=
  setLatch true (shiftOut val (setLatch false r)).

End ShiftRegister.

Import Arduino.

(** ** Pins and constants of the sketch *)

Definition latchPin : Z := 11.
Definition clockPin : Z := 12.
Definition dataPin : Z := 10.
Definition switchPins : list Z := [2; 3; 4; 5; 6; 7; 8; 9].
Definition modeButtonPin : Z := 13.
Definition potPin : Z := A1.
Definition analogSensorPin : Z := A2.
Definition totalModes : Z := 4.
Definition debounceDelay : Z := 50.
Definition logicNames : list string :=
  ["AND"%string; "OR"%string; "XOR"%string; "XNOR"%string].

Definition GATE_AND : Z := 0.
Definition GATE_OR : Z := 1.
Definition GATE_XOR : Z := 2.
Definition GATE_XNOR : Z := 3.

(** ** What one pass of [loop()] reads *)

Record Env : Type := mkEnv
  { digitalRead : Z -> bool;      (* level of a digital pin *)
    analogRead : Z -> Z;          (* 10-bit conversion of an analog pin *)
    millis1 : Z;                  (* millis() at line 314 *)
    millis2 : Z;                  (* millis() at line 316 *)
    libc_random : Z }.            (* what random() of the C library returns *)

(** ** Globals, devices and the record of blocking calls *)

Record State : Type := mkState
  { currentMode : Z;
    lastButtonState : bool;
    lastDebounce : Z;
    buttonPressed : bool;         (* the static local of handleModeSwitch *)
    quizTarget : Z;
    questionDisplayed : bool;
    lcd : Lcd.t;
    leds : ShiftRegister.t;
    draws : nat;                  (* calls of random() so far *)
    pauses : list Z }.            (* arguments of delay(), oldest first *)

Definition set_currentMode (v : Z) (s : State) : State :=
  mkState v (lastButtonState s) (lastDebounce s) (buttonPressed s)
    (quizTarget s) (questionDisplayed s) (lcd s) (leds s) (draws s) (pauses s).
Definition set_lastButtonState (v : bool) (s : State) : State :=
  mkState (currentMode s) v (lastDebounce s) (buttonPressed s)
    (quizTarget s) (questionDisplayed s) (lcd s) (leds s) (draws s) (pauses s).
Definition set_lastDebounce (v : Z) (s : State) : State :=
  mkState (currentMode s) (lastButtonState s) v (buttonPressed s)
    (quizTarget s) (questionDisplayed s) (lcd s) (leds s) (draws s) (pauses s).
Definition set_buttonPressed (v : bool) (s : State) : State :=
  mkState (currentMode s) (lastButtonState s) (lastDebounce s) v
    (quizTarget s) (questionDisplayed s) (lcd s) (leds s) (draws s) (pauses s).
Definition set_quizTarget (v : Z) (s : State) : State :=
  mkState (currentMode s) (lastButtonState s) (lastDebounce s) (buttonPressed s)
    v (questionDisplayed s) (lcd s) (leds s) (draws s) (pauses s).
Definition set_questionDisplayed (v : bool) (s : State) : State :=
  mkState (currentMode s) (lastButtonState s) (lastDebounce s) (buttonPressed s)
    (quizTarget s) v (lcd s) (leds s) (draws s) (pauses s).
Definition with_lcd (f : Lcd.t -> Lcd.t) (s : State) : State :=
  mkState (currentMode s) (lastButtonState s) (lastDebounce s) (buttonPressed s)
    (quizTarget s) (questionDisplayed s) (f (lcd s)) (leds s) (draws s) (pauses s).
Definition with_leds (f : ShiftRegister.t -> ShiftRegister.t) (s : State) : State :=
  mkState (currentMode s) (lastButtonState s) (lastDebounce s) (buttonPressed s)
    (quizTarget s) (questionDisplayed s) (lcd s) (f (leds s)) (draws s) (pauses s).
Definition count_draw (s : State) : State :=
  mkState (currentMode s) (lastButtonState s) (lastDebounce s) (buttonPressed s)
    (quizTarget s) (questionDisplayed s) (lcd s) (leds s) (S (draws s)) (pauses s).
Definition log_pause (ms : Z) (s : State) : State :=
  mkState (currentMode s) (lastButtonState s) (lastDebounce s) (buttonPressed s)
    (quizTarget s) (questionDisplayed s) (lcd s) (leds s) (draws s)
    (pauses s ++ [ms]).

(** ** The monad of the sketch's functions *)

Inductive result (A : Type) : Type :=
| Done (a : A) (s : State)
| Undefined (s : State).      (* a read outside an array, in state [s] *)
Arguments Done {A} a s.
Arguments Undefined {A} s.

Definition M (A : Type) : Type := State -> result A.

Definition ret {A} (a : A) : M A := fun s => Done a s.
Definition bind {A B} (m : M A) (k : A -> M B) : M B :=
  fun s => match m s with
           | Done a s' => k a s'
           | Undefined s' => Undefined s'
           end.
Definition get : M State := fun s => Done s s.
Definition modify (f : State -> State) : M unit := fun s => Done tt (f s).
Definition undefined {A} : M A := fun s => Undefined s.
Definition when (b : bool) (m : M unit) : M unit := if b then m else ret tt.

Definition state_of {A} (r : result A) : State :=
  match r with Done _ s => s | Undefined s => s end.

Declare Scope sketch_scope.
Delimit Scope sketch_scope with sketch.
Notation "x <- m ;; k" := (bind m (fun x => k))
  (at level 61, m at next level, right associativity) : sketch_scope.
Notation "m ;; k" := (bind m (fun _ => k))
  (at level 61, right associativity) : sketch_scope.
Open Scope sketch_scope.

(** ** Device calls *)

Definition lcd_clear : M unit := modify (with_lcd Lcd.clear).
Definition lcd_setCursor (c r : nat) : M unit := modify (with_lcd (Lcd.setCursor c r)).
Definition lcd_print (s : string) : M unit := modify (with_lcd (Lcd.print s)).
Definition lcd_print_char (c : ascii) : M unit :=
  modify (with_lcd (Lcd.write c)).
Definition lcd_print_int (n : Z) : M unit := lcd_print (print_long n DEC).
Definition lcd_print_byte (b base : Z) : M unit := lcd_print (print_uchar b base).

(** Only the latch pin is written with [digitalWrite]. *)
Definition digitalWrite (pin : Z) (v : bool) : M unit :=
  if pin =? latchPin then modify (with_leds (ShiftRegister.setLatch v))
  else ret tt.
(** The sketch always shifts on [dataPin] and [clockPin], least significant
    bit first; the register model keeps the byte sent. *)
Definition shiftOut (data clock bitOrder val : Z) : M unit :=
  modify (with_leds (ShiftRegister.shiftOut val)).
Definition delay (ms : Z) : M unit := modify (log_pause ms).

(** ** The sketch *)

(** [setup()]: the globals' initialisers, the blank display with the first
    mode's name, and the latch pin as an output at its reset level.  The
    seed given to [randomSeed] selects the sequence the generator returns,
    which is an input here ([libc_random]). *)
Definition power_on : State :=
  mkState 0 HIGH 0 false 0 false
    (Lcd.mk Lcd.blank Lcd.blank 0 0)
    (ShiftRegister.mk LOW 0 0) 0 [].

Definition setup : M unit :=
  lcd_clear ;;
  lcd_setCursor 0 0 ;;
  lcd_print "Mode: Manual".

(** The loop [for (i = 0; i < 8; i++) if (digitalRead(switchPins[i]) == LOW)
    v |= (1 << i);] of manualMode and quizMode. *)
Definition readSwitches (e : Env) : Z :=
  fold_left
    (fun state i =>
       if Bool.eqb (digitalRead e (nth i switchPins 0)) LOW
       then to_byte (Z.lor state (Z.shiftl 1 (Z.of_nat i)))
       else state)
    (seq 0 8) 0.

(** The loop of logicGateMode, which fills [inputA] from switches 0..3 and
    [inputB] from switches 4..7. *)
Definition readOperands (e : Env) : Z * Z :=
  fold_left
    (fun '(inputA, inputB) i =>
       let inputA :=
         if Bool.eqb (digitalRead e (nth i switchPins 0)) LOW
         then to_byte (Z.lor inputA (Z.shiftl 1 (Z.of_nat i)))
         else inputA in
       let inputB :=
         if Bool.eqb (digitalRead e (nth (i + 4) switchPins 0)) LOW
         then to_byte (Z.lor inputB (Z.shiftl 1 (Z.of_nat i)))
         else inputB in
       (inputA, inputB))
    (seq 0 4) (0, 0).

(** Lines 316 and 320 of handleModeSwitch, in the state reached after
    line 314: the level has been steady for longer than the window, it is
    the pressed one, and no press is latched. *)
Definition steady (e : Env) (s : State) : bool :=
  let reading := digitalRead e modeButtonPin in
  let lastDebounce' :=
    if negb (Bool.eqb reading (lastButtonState s)) then to_ulong (millis1 e)
    else lastDebounce s in
  to_ulong (to_ulong (millis2 e) - lastDebounce') >? debounceDelay.

Definition pressConfirmed (e : Env) (s : State) : bool :=
  steady e s && Bool.eqb (digitalRead e modeButtonPin) LOW
  && negb (buttonPressed s).

Definition handleModeSwitch (e : Env) : M unit :=
  let reading := digitalRead e modeButtonPin in
  s <- get ;;
  when (negb (Bool.eqb reading (lastButtonState s)))
    (modify (set_lastDebounce (to_ulong (millis1 e)))) ;;
  s <- get ;;
  when (to_ulong (to_ulong (millis2 e) - lastDebounce s) >? debounceDelay)
    (s <- get ;;
     when (Bool.eqb reading LOW && negb (buttonPressed s))
       (modify (set_buttonPressed true) ;;
        modify (set_currentMode
                  (to_byte (Z.rem (currentMode s + 1) totalModes))) ;;
        modify (set_questionDisplayed false) ;;
        lcd_clear ;;
        lcd_setCursor 0 0 ;;
        s <- get ;;
        if currentMode s =? 0 then lcd_print "Mode: Manual"
        else if currentMode s =? 1 then lcd_print "Mode: Quiz"
        else if currentMode s =? 2 then lcd_print "Mode: Logic"
        else if currentMode s =? 3 then lcd_print "Mode: ADC"
        else ret tt) ;;
     when (Bool.eqb reading HIGH)
       (modify (set_buttonPressed false))) ;;
  modify (set_lastButtonState reading).

Definition manualMode (e : Env) : M unit :=
  let state := readSwitches e in
  digitalWrite latchPin LOW ;;
  shiftOut dataPin clockPin LSBFIRST state ;;
  digitalWrite latchPin HIGH ;;
  lcd_setCursor 0 0 ;;
  lcd_print "DEC:" ;;
  lcd_print_int state ;;
  lcd_print "      " ;;
  lcd_setCursor 0 1 ;;
  lcd_print "HEX:0x" ;;
  when (state <? 16) (lcd_print_char "0") ;;
  lcd_print_byte state HEX ;;
  lcd_print "   ".

Definition quizMode (e : Env) : M unit :=
  s <- get ;;
  if negb (questionDisplayed s) then
    modify count_draw ;;
    modify (set_quizTarget (to_byte (random 0 256 (libc_random e)))) ;;
    s <- get ;;
    lcd_clear ;;
    lcd_setCursor 0 0 ;;
    lcd_print "DEC:" ;;
    lcd_print_int (quizTarget s) ;;
    lcd_setCursor 0 1 ;;
    lcd_print "HEX:0x" ;;
    when (quizTarget s <? 16) (lcd_print_char "0") ;;
    lcd_print_byte (quizTarget s) HEX ;;
    modify (set_questionDisplayed true)
  else
    let userInput := readSwitches e in
    digitalWrite latchPin LOW ;;
    shiftOut dataPin clockPin LSBFIRST userInput ;;
    digitalWrite latchPin HIGH ;;
    s <- get ;;
    if userInput =? quizTarget s then
      lcd_clear ;;
      lcd_setCursor 0 0 ;;
      lcd_print "Correct!" ;;
      delay 1000 ;;
      modify (set_questionDisplayed false)
    else
      lcd_setCursor 0 1 ;;
      lcd_print "Incorrect      ".

(** The [switch (logicType)] of logicGateMode; [result] keeps its
    initial 0 when no case matches. *)
Definition gateResult (logicType inputA inputB : Z) : Z :=
  if logicType =? GATE_AND then to_byte (Z.land inputA inputB)
  else if logicType =? GATE_OR then to_byte (Z.lor inputA inputB)
  else if logicType =? GATE_XOR then to_byte (Z.lxor inputA inputB)
  else if logicType =? GATE_XNOR
       then to_byte (Z.land (Z.lnot (Z.lxor inputA inputB)) 15)
  else 0.

(** [byte logicType = map(potValue, 0, 1023, 0, 4)]. *)
Definition gateIndex (potValue : Z) : Z := to_byte (map potValue 0 1023 0 4).

(** [for (int i = 3; i >= 0; i--) lcd.print((v >> i) & 1);] *)
Definition lcd_print_bits (v : Z) : M unit :=
  fold_left
    (fun m i => m ;; lcd_print_int (Z.land (Z.shiftr v (Z.of_nat i)) 1))
    [3; 2; 1; 0]%nat (ret tt).

Definition logicGateMode (e : Env) : M unit :=
  let '(inputA, inputB) := readOperands e in
  let potValue := analogRead e potPin in
  let logicType := gateIndex potValue in
  let result := gateResult logicType inputA inputB in
  digitalWrite latchPin LOW ;;
  shiftOut dataPin clockPin LSBFIRST result ;;
  digitalWrite latchPin HIGH ;;
  lcd_setCursor 0 0 ;;
  lcd_print_bits inputB ;;
  lcd_print_char " " ;;
  match nth_error logicNames (Z.to_nat logicType) with
  | Some name => lcd_print name
  | None => undefined
  end ;;
  lcd_print_char " " ;;
  lcd_print_bits inputA ;;
  lcd_print "  " ;;
  lcd_setCursor 0 1 ;;
  lcd_print "DEC:" ;;
  lcd_print_byte result DEC ;;
  lcd_print " HEX:0x" ;;
  lcd_print_byte result HEX ;;
  lcd_print "  ".

(** [byte mappedValue = map(rawValue, 0, 1023, 0, 255)]. *)
Definition adcValue (rawValue : Z) : Z := to_byte (map rawValue 0 1023 0 255).

Definition adcMode (e : Env) : M unit :=
  let rawValue := analogRead e analogSensorPin in
  let mappedValue := adcValue rawValue in
  digitalWrite latchPin LOW ;;
  shiftOut dataPin clockPin LSBFIRST mappedValue ;;
  digitalWrite latchPin HIGH ;;
  lcd_setCursor 0 0 ;;
  lcd_print "DEC:" ;;
  lcd_print_byte mappedValue DEC ;;
  lcd_print "     " ;;
  lcd_setCursor 0 1 ;;
  lcd_print "HEX:0x" ;;
  when (mappedValue <? 16) (lcd_print_char "0") ;;
  lcd_print_byte mappedValue HEX ;;
  lcd_print "        ".

(** The if-chain of [loop()] on [currentMode]. *)
Definition dispatch (e : Env) (mode : Z) : M unit :=
  if mode =? 0 then manualMode e
  else if mode =? 1 then quizMode e
  else if mode =? 2 then logicGateMode e
  else if mode =? 3 then adcMode e
  else ret tt.

Definition loop (e : Env) : M unit :=
  handleModeSwitch e ;;
  s <- get ;;
  dispatch e (currentMode s) ;;
  delay 100.

(** ** The texts the modes print, row by row *)

Definition zeroPad (v : Z) : string :=
  if v <? 16 then "0"%string else EmptyString.

Definition manualRow0 (v : Z) : string :=
  ("DEC:" ++ print_long v DEC ++ "      ")%string.
Definition manualRow1 (v : Z) : string :=
  ("HEX:0x" ++ zeroPad v ++ print_uchar v HEX ++ "   ")%string.

Definition quizRow0 (v : Z) : string := ("DEC:" ++ print_long v DEC)%string.
Definition quizRow1 (v : Z) : string :=
  ("HEX:0x" ++ zeroPad v ++ print_uchar v HEX)%string.

Definition bitsText (v : Z) : string :=
  (print_long (Z.land (Z.shiftr v 3) 1) DEC
   ++ print_long (Z.land (Z.shiftr v 2) 1) DEC
   ++ print_long (Z.land (Z.shiftr v 1) 1) DEC
   ++ print_long (Z.land (Z.shiftr v 0) 1) DEC)%string.
Definition logicRow0 (inputB : Z) (name : string) (inputA : Z) : string :=
  (bitsText inputB ++ " " ++ name ++ " " ++ bitsText inputA ++ "  ")%string.
Definition logicRow1 (v : Z) : string :=
  ("DEC:" ++ print_uchar v DEC ++ " HEX:0x" ++ print_uchar v HEX ++ "  ")%string.

Definition adcRow0 (v : Z) : string :=
  ("DEC:" ++ print_uchar v DEC ++ "     ")%string.
Definition adcRow1 (v : Z) : string :=
  ("HEX:0x" ++ zeroPad v ++ print_uchar v HEX ++ "        ")%string.

(** The state a pass that shifts out [v] and prints [t0] and [t1] leaves. *)
Definition shown (v : Z) (t0 t1 : string) (s : State) : State :=
  with_lcd (Lcd.render t0 t1) (with_leds (ShiftRegister.push v) s).

(** ** Running the sketch *)

(** The state in which [loop()] is first entered. *)
Definition booted : State := state_of (setup power_on).

(** Passes of [loop()] over the readings [ticks], oldest first; nothing is
    known of the program once a pass is undefined. *)
Fixpoint runLoop (ticks : list Env) (s : State) : result unit :=
  match ticks with
  | [] => Done tt s
  | e :: rest =>
      match loop e s with
      | Done _ s' => runLoop rest s'
      | Undefined s' => Undefined s'
      end
  end.

(** How many of those passes confirmed a press. *)
Fixpoint pressCount (ticks : list Env) (s : State) : nat :=
  match ticks with
  | [] => 0%nat
  | e :: rest =>
      ((if pressConfirmed e s then 1 else 0) +
       match loop e s with
       | Done _ s' => pressCount rest s'
       | Undefined _ => 0
       end)%nat
  end.

(** The edge detector alone, over a history of samples, newest first. *)
Definition afterSamples (hist : list Env) : State :=
  fold_right (fun e s => state_of (handleModeSwitch e s)) booted hist.

Definition confirmedPress (hist : list Env) : bool :=
  match hist with
  | [] => false
  | e :: older => pressConfirmed e (afterSamples older)
  end.

(** Readings for examples: the switches set to the bits of [switches], the
    mode button at level [button], the two analog lines, the counter value
    [t] at both calls of millis() and the generator's output [raw]. *)
Definition readings (switches : Z) (button : bool) (pot sensor t raw : Z) : Env :=
  mkEnv (fun pin => if pin =? modeButtonPin then button
                    else negb (Z.testbit switches (pin - 2)))
        (fun pin => if pin =? potPin then pot else sensor)
        t t raw.

(** A press held over two samples, a release seen at one sample, and a
    second press held over two samples, 100 ms apart; newest first. *)
Definition pressReleasePress : list Env :=
  [readings 0 LOW 0 0 500 0; readings 0 LOW 0 0 400 0;
   readings 0 HIGH 0 0 300 0;
   readings 0 LOW 0 0 200 0; readings 0 LOW 0 0 100 0].

(** Quiz mode after its first pass, in which the generator gave 135. *)
Definition asked : State := state_of (quizMode (readings 0 HIGH 0 0 0 135) booted).

(** ** Reference notions the properties are stated with *)

(** The numbers below [n], for checks by enumeration. *)
Definition below (n : nat) : list Z := List.map Z.of_nat (seq 0 n).

(** The switch vector: bit [i] is 1 exactly when switch [i] is actuated,
    that is, when its line reads LOW. *)
Definition actuated (e : Env) (i : nat) : bool :=
  negb (digitalRead e (nth i switchPins 0)).

Definition switchVector (e : Env) : Z :=
  fold_right (fun i acc => (if actuated e i then 2 ^ Z.of_nat i else 0) + acc)
    0 (seq 0 8).

(** Value of a decimal numeral, and the numerals without a leading zero. *)
Definition digitValue (c : ascii) : option Z :=
  let n := Z.of_nat (nat_of_ascii c) in
  if (48 <=? n) && (n <=? 57) then Some (n - 48) else None.

Fixpoint dec_value_from (acc : Z) (s : string) : option Z :=
  match s with
  | EmptyString => Some acc
  | String c rest =>
      match digitValue c with
      | Some d => dec_value_from (10 * acc + d) rest
      | None => None
      end
  end.

Definition dec_value (s : string) : option Z :=
  match s with
  | EmptyString => None
  | _ => dec_value_from 0 s
  end.

Definition no_leading_zero (s : string) : bool :=
  match s with
  | String "0" (String _ _) => false
  | _ => true
  end.

(** Two upper-case hexadecimal digits of a byte. *)
Definition hexDigit (d : Z) : ascii :=
  nth (Z.to_nat d) (list_ascii_of_string "0123456789ABCDEF") " "%char.

Definition hex2 (v : Z) : string :=
  String (hexDigit (v / 16)) (String (hexDigit (v mod 16)) EmptyString).

(** The four gates, bit by bit on 4-bit operands. *)
Inductive Gate : Type := AND | OR | XOR | XNOR.

Definition gates : list Gate := [AND; OR; XOR; XNOR].

Definition gate_bit (g : Gate) (a b : bool) : bool :=
  match g with
  | AND => a && b
  | OR => a || b
  | XOR => xorb a b
  | XNOR => negb (xorb a b)
  end.

Definition gate_spec (g : Gate) (a b : Z) : Z :=
  fold_right
    (fun i acc =>
       (if gate_bit g (Z.testbit a (Z.of_nat i)) (Z.testbit b (Z.of_nat i))
        then 2 ^ Z.of_nat i else 0) + acc)
    0 (seq 0 4).

(** The quantization rule of the specification: [floor(v * 4 / 1024)],
    clamped to [0, 3]. *)
Definition quantized (v : Z) : Z := Z.max 0 (Z.min 3 (v * 4 / 1024)).

(** The edge detector read off the sample history (newest first): the
    level of the newest sample (released when there is none yet), the
    counter value at which the level last changed, and for how long it has
    been held at the newest sample, by the 32-bit millisecond counter. *)
Definition level (e : Env) : bool := digitalRead e modeButtonPin.

Definition lastLevel (hist : list Env) : bool :=
  match hist with
  | [] => HIGH
  | e :: _ => level e
  end.

Fixpoint stableSince (hist : list Env) : Z :=
  match hist with
  | [] => 0
  | e :: older =>
      if Bool.eqb (level e) (lastLevel older) then stableSince older
      else to_ulong (millis1 e)
  end.

Definition heldFor (hist : list Env) : Z :=
  match hist with
  | [] => 0
  | e :: _ => to_ulong (to_ulong (millis2 e) - stableSince hist)
  end.

(** The newest sample is pressed and the level has been held for longer
    than the window since it changed from released. *)
Definition pressedLongEnough (hist : list Env) : bool :=
  Bool.eqb (lastLevel hist) LOW && (heldFor hist >? debounceDelay).

(** The event as the specification words it: at the first sample at which
    the press has been held for longer than the window. *)
Definition claimedEvent (hist : list Env) : bool :=
  pressedLongEnough hist && negb (pressedLongEnough (tl hist)).

(** The press latch read off the history: the level of the last sample
    that was held for longer than the window. *)
Fixpoint latched (hist : list Env) : bool :=
  match hist with
  | [] => false
  | e :: older =>
      if heldFor hist >? debounceDelay then Bool.eqb (level e) LOW
      else latched older
  end.

(** [n] calls of a mode function in a row. *)
Fixpoint repeated (n : nat) (m : M unit) : M unit :=
  match n with
  | O => ret tt
  | S n' => m ;; repeated n' m
  end.

(** Two states agree on the mode number and on the detector's variables. *)
Definition same_controller (s s' : State) : Prop :=
  currentMode s' = currentMode s /\
  lastButtonState s' = lastButtonState s /\
  lastDebounce s' = lastDebounce s /\
  buttonPressed s' = buttonPressed s.

(** The mode functions in the cyclic order of the mode numbers. *)
Definition modeFunctions (e : Env) : list (M unit) :=
  [manualMode e; quizMode e; logicGateMode e; adcMode e].

(** ** Further notions, for the properties of the passes as a whole *)

(** The [switch (currentMode)] of handleModeSwitch: the name written to the
    display on a mode change. *)
Definition modeBanner (mode : Z) : string :=
  if mode =? 0 then "Mode: Manual"%string
  else if mode =? 1 then "Mode: Quiz"%string
  else if mode =? 2 then "Mode: Logic"%string
  else if mode =? 3 then "Mode: ADC"%string
  else EmptyString.

(** The state handleModeSwitch leaves when it confirms no press: only the
    detector's three variables are assigned. *)
Definition sampled (e : Env) (s : State) : State :=
  set_lastButtonState (level e)
    (set_buttonPressed
       (if steady e s then Bool.eqb (level e) LOW else buttonPressed s)
       (set_lastDebounce
          (if Bool.eqb (level e) (lastButtonState s) then lastDebounce s
           else to_ulong (millis1 e))
          s)).

(** Four binary digits of a number, most significant first. *)
Definition bitChar (b : bool) : ascii := if b then "1"%char else "0"%char.

Definition bin4 (v : Z) : string :=
  String (bitChar (Z.testbit v 3))
    (String (bitChar (Z.testbit v 2))
       (String (bitChar (Z.testbit v 1))
          (String (bitChar (Z.testbit v 0)) EmptyString))).

(** A text on an otherwise blank row of sixteen cells. *)
Definition pad16 (t : string) : list ascii :=
  (list_ascii_of_string t ++ repeat " "%char (16 - String.length t))%list.

(** The same readings with the millisecond counter [k] further on. *)
Definition shiftClock (k : Z) (e : Env) : Env :=
  mkEnv (digitalRead e) (analogRead e) (millis1 e + k) (millis2 e + k)
    (libc_random e).

(* ================================================================== *)
(** * Part II: lemmas and theorems                                     *)
(* ================================================================== *)

(** ** Checks by enumeration *)

Lemma below_forallb (n : nat) (f : Z -> bool) :
  forallb f (below n) = true ->
  forall z, 0 <= z < Z.of_nat n -> f z = true.
Proof.
  intros H z Hz. rewrite forallb_forall in H. apply H.
  unfold below. apply in_map_iff. exists (Z.to_nat z). split.
  - lia.
  - apply in_seq. lia.
Qed.

(** ** The display *)

Section LcdFacts.
Import Lcd.

Lemma put_length c ch l : List.length (put c ch l) = List.length l.
Proof.
  revert c; induction l as [|h l IH]; intros [|c]; simpl; auto.
Qed.

Lemma overlay_length text cells :
  List.length (overlay text cells) = List.length cells.
Proof.
  revert cells; induction text as [|a text IH]; intros [|h cells]; simpl; auto.
Qed.

Lemma overlay_nil_l cells : overlay [] cells = cells.
Proof. destruct cells; reflexivity. Qed.

Lemma overlay_idem text cells :
  overlay text (overlay text cells) = overlay text cells.
Proof.
  revert cells; induction text as [|a text IH]; intros [|h cells]; simpl;
    try reflexivity.
  now rewrite IH.
Qed.

Lemma overlay_fits text cells :
  (List.length text <= List.length cells)%nat ->
  overlay text cells = (text ++ skipn (List.length text) cells)%list.
Proof.
  revert cells; induction text as [|a text IH]; intros [|h cells] H; simpl in *;
    try reflexivity; try lia.
  f_equal. apply IH. lia.
Qed.

(** One more character after a text laid from the first column. *)
Lemma put_after_overlay ch text : forall cells,
  put (List.length text) ch (overlay text cells)
  = overlay (text ++ [ch]) cells.
Proof.
  induction text as [|a text IH]; intros [|h cells]; simpl.
  - reflexivity.
  - destruct cells; reflexivity.
  - reflexivity.
  - f_equal. apply IH.
Qed.

Lemma write_chars_row0 text : forall d pre cells,
  row d = 0%nat -> col d = List.length pre -> row0 d = overlay pre cells ->
  fold_left (fun d ch => write ch d) text d
  = mk (overlay (pre ++ text) cells) (row1 d) (List.length (pre ++ text)) 0.
Proof.
  induction text as [|ch text IH]; intros d pre cells Hr Hc H0.
  - simpl. rewrite app_nil_r, <- H0, <- Hc, <- Hr. destruct d; reflexivity.
  - simpl fold_left.
    rewrite (IH _ (pre ++ [ch])%list cells).
    + rewrite <- app_assoc. unfold write. rewrite Hr. reflexivity.
    + unfold write. rewrite Hr. reflexivity.
    + unfold write. rewrite Hr. cbn [col]. rewrite Hc, length_app. simpl. lia.
    + unfold write. rewrite Hr. cbn [row0]. rewrite Hc, H0.
      apply put_after_overlay.
Qed.

Lemma write_chars_row1 text : forall d pre cells,
  row d = 1%nat -> col d = List.length pre -> row1 d = overlay pre cells ->
  fold_left (fun d ch => write ch d) text d
  = mk (row0 d) (overlay (pre ++ text) cells) (List.length (pre ++ text)) 1.
Proof.
  induction text as [|ch text IH]; intros d pre cells Hr Hc H1.
  - simpl. rewrite app_nil_r, <- H1, <- Hc, <- Hr. destruct d; reflexivity.
  - simpl fold_left.
    rewrite (IH _ (pre ++ [ch])%list cells).
    + rewrite <- app_assoc. unfold write. rewrite Hr. reflexivity.
    + unfold write. rewrite Hr. reflexivity.
    + unfold write. rewrite Hr. cbn [col]. rewrite Hc, length_app. simpl. lia.
    + unfold write. rewrite Hr. cbn [row1]. rewrite Hc, H1.
      apply put_after_overlay.
Qed.

Lemma render_rows t0 t1 d :
  render t0 t1 d
  = mk (overlay (list_ascii_of_string t0) (row0 d))
       (overlay (list_ascii_of_string t1) (row1 d))
       (String.length t1) 1.
Proof.
  unfold render, print.
  rewrite (write_chars_row0 _ (setCursor 0 0 d) [] (row0 d));
    [| reflexivity | reflexivity | symmetry; apply overlay_nil_l ].
  rewrite (write_chars_row1 _ _ [] (row1 d));
    [| reflexivity | reflexivity | symmetry; apply overlay_nil_l ].
  simpl. f_equal. clear. induction t1; simpl; auto.
Qed.

Lemma render_idem t0 t1 d : render t0 t1 (render t0 t1 d) = render t0 t1 d.
Proof.
  rewrite !render_rows. cbn [row0 row1]. now rewrite !overlay_idem.
Qed.

Lemma render_wf t0 t1 d : wf d -> wf (render t0 t1 d).
Proof.
  intros [H0 H1]. rewrite render_rows. split; cbn [row0 row1];
    now rewrite overlay_length.
Qed.

Lemma write_wf ch d : wf d -> wf (write ch d).
Proof.
  intros [H0 H1]. unfold write, wf.
  destruct (row d); cbn [row0 row1]; rewrite ?put_length; auto.
Qed.

Lemma print_wf t d : wf d -> wf (print t d).
Proof.
  unfold print. revert d.
  induction (list_ascii_of_string t) as [|ch l IH]; intros d W;
    [exact W | apply IH, write_wf, W].
Qed.

Lemma setCursor_wf c r d : wf d -> wf (setCursor c r d).
Proof. destruct r as [|[|[|r]]]; intros W; exact W. Qed.

Lemma clear_wf d : wf (clear d).
Proof. split; reflexivity. Qed.

Lemma list_ascii_of_string_app s1 s2 :
  list_ascii_of_string (s1 ++ s2)
  = (list_ascii_of_string s1 ++ list_ascii_of_string s2)%list.
Proof. induction s1; simpl; [reflexivity | now rewrite IHs1]. Qed.

Lemma print_print s1 s2 d : print s2 (print s1 d) = print (s1 ++ s2) d.
Proof.
  unfold print. now rewrite list_ascii_of_string_app, fold_left_app.
Qed.

Lemma write_print ch d : write ch d = print (String ch EmptyString) d.
Proof. reflexivity. Qed.

Lemma print_empty d : print EmptyString d = d.
Proof. reflexivity. Qed.

Lemma string_length_chars s :
  List.length (list_ascii_of_string s) = String.length s.
Proof. induction s; simpl; auto. Qed.

(** The row a text of at most sixteen characters leaves. *)
Lemma overlay_text t cells :
  (String.length t <= List.length cells)%nat ->
  overlay (list_ascii_of_string t) cells
  = (list_ascii_of_string t ++ skipn (String.length t) cells)%list.
Proof.
  intros H. rewrite overlay_fits; rewrite string_length_chars; auto.
Qed.

End LcdFacts.

(** ** What one call of each mode does *)

Lemma digitalWrite_latch v :
  digitalWrite latchPin v = modify (with_leds (ShiftRegister.setLatch v)).
Proof. reflexivity. Qed.

Ltac run_sketch :=
  rewrite ?digitalWrite_latch;
  cbv [bind modify ret get when undefined lcd_clear lcd_setCursor lcd_print
       lcd_print_char lcd_print_int lcd_print_byte lcd_print_bits fold_left
       shiftOut delay shown
       with_lcd with_leds set_currentMode set_lastButtonState set_lastDebounce
       set_buttonPressed set_quizTarget set_questionDisplayed count_draw
       log_pause
       currentMode lastButtonState lastDebounce buttonPressed quizTarget
       questionDisplayed lcd leds draws pauses].

Ltac split_prints :=
  unfold Lcd.render; rewrite <- ?print_print; try reflexivity.

Lemma manualMode_run e s :
  manualMode e s
  = Done tt (shown (readSwitches e) (manualRow0 (readSwitches e))
               (manualRow1 (readSwitches e)) s).
Proof.
  unfold manualMode, manualRow0, manualRow1, zeroPad.
  destruct (readSwitches e <? 16); run_sketch.
  all: do 2 f_equal; split_prints.
Qed.

Lemma adcMode_run e s :
  let v := adcValue (analogRead e analogSensorPin) in
  adcMode e s = Done tt (shown v (adcRow0 v) (adcRow1 v) s).
Proof.
  unfold adcMode, adcRow0, adcRow1, zeroPad.
  destruct (adcValue (analogRead e analogSensorPin) <? 16); run_sketch.
  all: do 2 f_equal; split_prints.
Qed.

Lemma logicGateMode_run e s name :
  let inputA := fst (readOperands e) in
  let inputB := snd (readOperands e) in
  let logicType := gateIndex (analogRead e potPin) in
  let result := gateResult logicType inputA inputB in
  nth_error logicNames (Z.to_nat logicType) = Some name ->
  logicGateMode e s
  = Done tt (shown result (logicRow0 inputB name inputA) (logicRow1 result) s).
Proof.
  unfold logicGateMode, logicRow0, logicRow1, bitsText.
  destruct (readOperands e) as [inputA inputB]. cbn [fst snd]. intros ->.
  run_sketch. do 2 f_equal. split_prints.
Qed.

Lemma logicGateMode_out_of_bounds e s :
  let inputA := fst (readOperands e) in
  let inputB := snd (readOperands e) in
  let logicType := gateIndex (analogRead e potPin) in
  let result := gateResult logicType inputA inputB in
  nth_error logicNames (Z.to_nat logicType) = None ->
  logicGateMode e s
  = Undefined
      (with_lcd (fun d => Lcd.print (bitsText inputB ++ " ") (Lcd.setCursor 0 0 d))
         (with_leds (ShiftRegister.push result) s)).
Proof.
  unfold logicGateMode, bitsText.
  destruct (readOperands e) as [inputA inputB]. cbn [fst snd]. intros ->.
  run_sketch. do 2 f_equal. split_prints.
Qed.

Lemma quizMode_ask e s :
  questionDisplayed s = false ->
  let target := to_byte (random 0 256 (libc_random e)) in
  quizMode e s
  = Done tt
      (set_questionDisplayed true
         (with_lcd (fun d => Lcd.render (quizRow0 target) (quizRow1 target) (Lcd.clear d))
            (set_quizTarget target (count_draw s)))).
Proof.
  intros H. unfold quizMode, quizRow0, quizRow1, zeroPad, bind at 1, get.
  rewrite H. cbn [negb].
  destruct (to_byte (random 0 256 (libc_random e)) <? 16) eqn:E; run_sketch;
    rewrite E.
  all: do 2 f_equal; split_prints.
Qed.

Lemma quizMode_correct e s :
  questionDisplayed s = true ->
  readSwitches e = quizTarget s ->
  quizMode e s
  = Done tt
      (set_questionDisplayed false
         (log_pause 1000
            (with_lcd (fun d => Lcd.print "Correct!" (Lcd.setCursor 0 0 (Lcd.clear d)))
               (with_leds (ShiftRegister.push (readSwitches e)) s)))).
Proof.
  intros H E. unfold quizMode, bind at 1, get. rewrite H. cbn [negb].
  run_sketch. rewrite E, Z.eqb_refl. reflexivity.
Qed.

Lemma quizMode_incorrect e s :
  questionDisplayed s = true ->
  readSwitches e <> quizTarget s ->
  quizMode e s
  = Done tt
      (with_lcd (fun d => Lcd.print "Incorrect      " (Lcd.setCursor 0 1 d))
         (with_leds (ShiftRegister.push (readSwitches e)) s)).
Proof.
  intros H E. unfold quizMode, bind at 1, get. rewrite H. cbn [negb].
  apply Z.eqb_neq in E. destruct s; cbn [quizTarget] in E.
  run_sketch. rewrite E. reflexivity.
Qed.

(** ** The switch vector *)

Ltac each_switch e :=
  destruct (digitalRead e 2), (digitalRead e 3), (digitalRead e 4),
    (digitalRead e 5), (digitalRead e 6), (digitalRead e 7),
    (digitalRead e 8), (digitalRead e 9).

Lemma readSwitches_switchVector e : readSwitches e = switchVector e.
Proof.
  unfold readSwitches, switchVector, actuated.
  cbn [seq fold_left fold_right nth switchPins].
  each_switch e; reflexivity.
Qed.

Lemma switchVector_byte e : 0 <= switchVector e < 256.
Proof.
  unfold switchVector, actuated.
  cbn [seq fold_right nth switchPins].
  each_switch e; cbn; lia.
Qed.

Lemma readOperands_switchVector e :
  readOperands e = (switchVector e mod 16, switchVector e / 16).
Proof.
  unfold readOperands, switchVector, actuated.
  cbn [seq fold_left fold_right nth switchPins Nat.add].
  each_switch e; reflexivity.
Qed.

(** Every byte is the vector of some position of the switches. *)
Lemma switchVector_onto s :
  0 <= s < 256 ->
  exists e, switchVector e = s.
Proof.
  intros H.
  exists (mkEnv (fun pin => negb (Z.testbit s (pin - 2))) (fun _ => 0) 0 0 0).
  apply Z.eqb_eq. revert s H. apply (below_forallb 256
    (fun s => switchVector
                (mkEnv (fun pin => negb (Z.testbit s (pin - 2))) (fun _ => 0) 0 0 0)
              =? s)).
  vm_compute. reflexivity.
Qed.

(** ** Numerals of a byte *)

Lemma byte_numerals v :
  0 <= v < 256 ->
  to_byte v = v /\
  dec_value (print_long v DEC) = Some v /\
  no_leading_zero (print_long v DEC) = true /\
  print_uchar v DEC = print_long v DEC /\
  (String.length (print_long v DEC) <= 3)%nat /\
  (zeroPad v ++ print_uchar v HEX)%string = hex2 v.
Proof.
  intros H.
  assert (C : (fun v =>
                 (to_byte v =? v)
                 && match dec_value (print_long v DEC) with
                    | Some x => x =? v
                    | None => false
                    end
                 && no_leading_zero (print_long v DEC)
                 && String.eqb (print_uchar v DEC) (print_long v DEC)
                 && (String.length (print_long v DEC) <=? 3)%nat
                 && String.eqb (zeroPad v ++ print_uchar v HEX) (hex2 v)) v = true).
  { revert v H. apply (below_forallb 256). vm_compute. reflexivity. }
  cbv beta in C.
  repeat (apply andb_prop in C; destruct C as [C ?]).
  destruct (dec_value (print_long v DEC)) as [x|]; [|discriminate].
  repeat split.
  - now apply Z.eqb_eq.
  - f_equal. now apply Z.eqb_eq.
  - assumption.
  - now apply String.eqb_eq.
  - now apply Nat.leb_le.
  - now apply String.eqb_eq.
Qed.

Lemma string_length_app s1 s2 :
  String.length (s1 ++ s2) = (String.length s1 + String.length s2)%nat.
Proof. induction s1; simpl; auto. Qed.

Lemma string_app_assoc (s1 s2 s3 : string) :
  ((s1 ++ s2) ++ s3 = s1 ++ (s2 ++ s3))%string.
Proof. induction s1; simpl; [reflexivity | now rewrite IHs1]. Qed.

(** C3. For every switch vector [s] (every byte is one, [switchVector_onto]),
    a pass of Manual mode on a display of sixteen columns leaves on row 0
    the text "DEC:" followed by the decimal numeral of [s] without leading
    zero and six blanks, on row 1 the text "HEX:0x" followed by the two
    upper-case hexadecimal digits of [s] and three blanks, the cells to the
    right of each text as they were, and [s] itself on the outputs of the
    shift register. *)
Theorem manualMode_shows_switch_vector (e : Env) (st : State) (s : Z) :
  switchVector e = s ->
  Lcd.wf (lcd st) ->
  exists st' dec,
    manualMode e st = Done tt st' /\
    dec_value dec = Some s /\
    no_leading_zero dec = true /\
    Lcd.row0 (lcd st')
    = (list_ascii_of_string ("DEC:" ++ dec ++ "      ")
       ++ skipn (10 + String.length dec) (Lcd.row0 (lcd st)))%list /\
    Lcd.row1 (lcd st')
    = (list_ascii_of_string ("HEX:0x" ++ hex2 s ++ "   ")
       ++ skipn 11 (Lcd.row1 (lcd st)))%list /\
    ShiftRegister.shifted (leds st') = s /\
    ShiftRegister.outputs (leds st') = s.
Proof.
  intros Hs [W0 W1].
  pose proof (switchVector_byte e) as Hb. rewrite Hs in Hb.
  destruct (byte_numerals s Hb) as (Hbyte & Hdec & Hlead & _ & Hlen & Hhex).
  exists (shown s (manualRow0 s) (manualRow1 s) st), (print_long s DEC).
  split; [| split; [exact Hdec | split; [exact Hlead |]]].
  { rewrite manualMode_run, readSwitches_switchVector, Hs. reflexivity. }
  unfold shown. cbn [lcd leds with_lcd with_leds].
  rewrite render_rows. cbn [Lcd.row0 Lcd.row1].
  assert (L0 : String.length (manualRow0 s)
               = (10 + String.length (print_long s DEC))%nat).
  { unfold manualRow0. rewrite !string_length_app. simpl. lia. }
  assert (L1 : String.length (manualRow1 s) = 11%nat).
  { unfold manualRow1. rewrite <- string_app_assoc, <- string_app_assoc.
    rewrite (string_app_assoc "HEX:0x"), Hhex. reflexivity. }
  rewrite !overlay_text by lia.
  rewrite L0, L1.
  repeat split.
  - unfold manualRow1.
    rewrite <- (string_app_assoc (zeroPad s)), Hhex. reflexivity.
  - cbn. exact Hbyte.
  - cbn. exact Hbyte.
Qed.

Lemma manualMode_shows_switch_vector_witness :
  switchVector (readings 170 HIGH 0 0 0 0) = 170 /\
  Lcd.wf (lcd booted) /\
  exists st' dec,
    manualMode (readings 170 HIGH 0 0 0 0) booted = Done tt st' /\
    dec_value dec = Some 170 /\
    no_leading_zero dec = true /\
    Lcd.row0 (lcd st')
    = (list_ascii_of_string ("DEC:" ++ dec ++ "      ")
       ++ skipn (10 + String.length dec) (Lcd.row0 (lcd booted)))%list /\
    Lcd.row1 (lcd st')
    = (list_ascii_of_string ("HEX:0x" ++ hex2 170 ++ "   ")
       ++ skipn 11 (Lcd.row1 (lcd booted)))%list /\
    ShiftRegister.shifted (leds st') = 170 /\
    ShiftRegister.outputs (leds st') = 170.
Proof.
  split; [reflexivity | split; [split; reflexivity |]].
  apply (manualMode_shows_switch_vector (readings 170 HIGH 0 0 0 0) booted 170).
  - reflexivity.
  - split; reflexivity.
Defined.

(** ** Rescaling the analog reading *)

Lemma adcValue_floor raw :
  0 <= raw <= 1023 -> adcValue raw = raw * 255 / 1023.
Proof.
  intros H. apply Z.eqb_eq. revert raw H.
  enough (forall raw, 0 <= raw < Z.of_nat 1024 ->
                      (fun raw => adcValue raw =? raw * 255 / 1023) raw = true)
    as E by (intros raw H; apply E; lia).
  apply below_forallb. vm_compute. reflexivity.
Qed.

Lemma adcValue_byte raw : 0 <= raw <= 1023 -> 0 <= raw * 255 / 1023 < 256.
Proof.
  intros H. split.
  - apply Z.div_pos; lia.
  - apply Z.div_lt_upper_bound; lia.
Qed.

(** C7. For a raw reading in [0, 1023], ADC mode shifts
    [floor(raw * 255 / 1023)] out to the LEDs and prints its decimal numeral
    after "DEC:" on row 0 and its two hexadecimal digits after "HEX:0x" on
    row 1; raw 0 gives 0, raw 1023 gives 255 and raw 512 gives 127. *)
Theorem adcMode_rescales (e : Env) (st : State) (raw : Z) :
  analogRead e analogSensorPin = raw ->
  0 <= raw <= 1023 ->
  Lcd.wf (lcd st) ->
  (exists st' dec,
     adcMode e st = Done tt st' /\
     ShiftRegister.shifted (leds st') = raw * 255 / 1023 /\
     ShiftRegister.outputs (leds st') = raw * 255 / 1023 /\
     dec_value dec = Some (raw * 255 / 1023) /\
     no_leading_zero dec = true /\
     Lcd.row0 (lcd st')
     = (list_ascii_of_string ("DEC:" ++ dec ++ "     ")
        ++ skipn (9 + String.length dec) (Lcd.row0 (lcd st)))%list /\
     Lcd.row1 (lcd st')
     = list_ascii_of_string ("HEX:0x" ++ hex2 (raw * 255 / 1023) ++ "        ")) /\
  adcValue 0 = 0 /\ adcValue 1023 = 255 /\ adcValue 512 = 127.
Proof.
  intros Hraw Hr [W0 W1].
  split; [| repeat split; reflexivity].
  pose proof (adcValue_byte raw Hr) as Hb.
  destruct (byte_numerals _ Hb) as (Hbyte & Hdec & Hlead & Hu & Hlen & Hhex).
  set (v := raw * 255 / 1023) in *.
  exists (shown v (adcRow0 v) (adcRow1 v) st), (print_long v DEC).
  split.
  { rewrite adcMode_run, Hraw, adcValue_floor by exact Hr. reflexivity. }
  unfold shown. cbn [lcd leds with_lcd with_leds].
  rewrite render_rows. cbn [Lcd.row0 Lcd.row1].
  assert (L0 : String.length (adcRow0 v)
               = (9 + String.length (print_long v DEC))%nat).
  { unfold adcRow0. rewrite Hu, !string_length_app. simpl. lia. }
  assert (E1 : adcRow1 v = ("HEX:0x" ++ hex2 v ++ "        ")%string).
  { unfold adcRow1. rewrite <- (string_app_assoc (zeroPad v)), Hhex.
    reflexivity. }
  assert (L1 : String.length (adcRow1 v) = 16%nat) by (rewrite E1; reflexivity).
  rewrite !overlay_text by lia.
  rewrite L0, L1, E1.
  split; [cbn; exact Hbyte | split; [cbn; exact Hbyte |]].
  split; [exact Hdec | split; [exact Hlead |]].
  split.
  - unfold adcRow0. rewrite Hu. reflexivity.
  - rewrite skipn_all2 by (rewrite W1; lia). now rewrite app_nil_r.
Qed.

Lemma adcMode_rescales_witness :
  analogRead (readings 0 HIGH 0 512 0 0) analogSensorPin = 512 /\
  0 <= 512 <= 1023 /\
  Lcd.wf (lcd booted) /\
  ((exists st' dec,
      adcMode (readings 0 HIGH 0 512 0 0) booted = Done tt st' /\
      ShiftRegister.shifted (leds st') = 512 * 255 / 1023 /\
      ShiftRegister.outputs (leds st') = 512 * 255 / 1023 /\
      dec_value dec = Some (512 * 255 / 1023) /\
      no_leading_zero dec = true /\
      Lcd.row0 (lcd st')
      = (list_ascii_of_string ("DEC:" ++ dec ++ "     ")
         ++ skipn (9 + String.length dec) (Lcd.row0 (lcd booted)))%list /\
      Lcd.row1 (lcd st')
      = list_ascii_of_string ("HEX:0x" ++ hex2 (512 * 255 / 1023) ++ "        ")) /\
   adcValue 0 = 0 /\ adcValue 1023 = 255 /\ adcValue 512 = 127).
Proof.
  split; [reflexivity | split; [lia | split; [split; reflexivity |]]].
  apply (adcMode_rescales (readings 0 HIGH 0 512 0 0) booted 512).
  - reflexivity.
  - lia.
  - split; reflexivity.
Defined.

(** ** Gate selection and gate results *)

Lemma gateIndex_quantized v :
  0 <= v <= 1022 -> gateIndex v = quantized v.
Proof.
  intros H. apply Z.eqb_eq. revert v H.
  enough (forall v, 0 <= v < Z.of_nat 1023 ->
                    (fun v => gateIndex v =? quantized v) v = true)
    as E by (intros v H; apply E; lia).
  apply below_forallb. vm_compute. reflexivity.
Qed.

Lemma quantized_range v : 0 <= quantized v <= 3.
Proof. unfold quantized. lia. Qed.

Lemma gateIndex_names v :
  0 <= gateIndex v <= 3 ->
  exists gate name,
    nth_error gates (Z.to_nat (gateIndex v)) = Some gate /\
    nth_error logicNames (Z.to_nat (gateIndex v)) = Some name.
Proof.
  intros H.
  assert (C : gateIndex v = 0 \/ gateIndex v = 1 \/ gateIndex v = 2
              \/ gateIndex v = 3) by lia.
  destruct C as [-> | [-> | [-> | ->]]]; eexists; eexists; split; reflexivity.
Qed.

Lemma below2_forallb (n m : nat) (f : Z -> Z -> bool) :
  forallb (fun a => forallb (f a) (below m)) (below n) = true ->
  forall a b, 0 <= a < Z.of_nat n -> 0 <= b < Z.of_nat m -> f a b = true.
Proof.
  intros H a b Ha Hb.
  apply (below_forallb m (f a)); [| exact Hb].
  apply (below_forallb n (fun a => forallb (f a) (below m))); assumption.
Qed.

Lemma gateResult_gate_spec index gate a b :
  nth_error gates (Z.to_nat index) = Some gate ->
  0 <= index <= 3 -> 0 <= a < 16 -> 0 <= b < 16 ->
  gateResult index a b = gate_spec gate a b /\ 0 <= gateResult index a b < 16.
Proof.
  intros Hg Hi Ha Hb.
  assert (C : index = 0 \/ index = 1 \/ index = 2 \/ index = 3) by lia.
  assert (E : forall i g,
             forallb (fun a => forallb (fun b =>
               (gateResult i a b =? gate_spec g a b)
               && (0 <=? gateResult i a b) && (gateResult i a b <? 16))
               (below 16)) (below 16) = true ->
             gateResult i a b = gate_spec g a b /\ 0 <= gateResult i a b < 16).
  { intros i g F.
    pose proof (below2_forallb 16 16 _ F a b Ha Hb) as R. cbv beta in R.
    apply andb_prop in R; destruct R as [R R3].
    apply andb_prop in R; destruct R as [R1 R2].
    apply Z.eqb_eq in R1. apply Z.leb_le in R2. apply Z.ltb_lt in R3. lia. }
  destruct C as [-> | [-> | [-> | ->]]]; cbn in Hg; injection Hg as <-;
    apply E; vm_compute; reflexivity.
Qed.

Lemma operands_range e :
  0 <= switchVector e mod 16 < 16 /\ 0 <= switchVector e / 16 < 16.
Proof.
  pose proof (switchVector_byte e). split.
  - apply Z.mod_pos_bound. lia.
  - split; [apply Z.div_pos; lia | apply Z.div_lt_upper_bound; lia].
Qed.

Lemma push_outputs v r :
  ShiftRegister.push v r = ShiftRegister.mk true (to_byte v) (to_byte v).
Proof.
  unfold ShiftRegister.push, ShiftRegister.setLatch, ShiftRegister.shiftOut.
  cbn. destruct (ShiftRegister.latch r); reflexivity.
Qed.

(** C1 at its failing input. With the selector at the upper end of its
    range the index the sketch computes is 4, where the quantization rule
    gives 3, and no gate has that index. *)
Theorem gateIndex_at_selector_max :
  gateIndex 1023 = 4 /\
  quantized 1023 = 3 /\
  nth_error gates (Z.to_nat (gateIndex 1023)) = None.
Proof. repeat split. Qed.

(** C2. With the selector reading 1023 the gate index is 4; the switch on
    the index has no case for it, so the result shifted out to the LEDs is 0
    whatever the switches read; the table of gate names has four entries
    and the name is read at index 4, outside it. *)
Theorem logicGateMode_selector_max (e : Env) (st : State) :
  analogRead e potPin = 1023 ->
  gateIndex (analogRead e potPin) = 4 /\
  (forall a b, gateResult 4 a b = 0) /\
  List.length logicNames = 4%nat /\
  nth_error logicNames (Z.to_nat (gateIndex (analogRead e potPin))) = None /\
  exists st',
    logicGateMode e st = Undefined st' /\
    ShiftRegister.shifted (leds st') = 0 /\
    ShiftRegister.outputs (leds st') = 0.
Proof.
  intros H. rewrite H.
  split; [reflexivity | split; [reflexivity | split; [reflexivity |]]].
  split; [reflexivity |].
  eexists. split.
  - apply logicGateMode_out_of_bounds. rewrite H. reflexivity.
  - cbn [leds with_lcd with_leds]. rewrite push_outputs, H. split; reflexivity.
Qed.

Lemma logicGateMode_selector_max_witness :
  analogRead (readings 202 HIGH 1023 0 0 0) potPin = 1023 /\
  gateIndex (analogRead (readings 202 HIGH 1023 0 0 0) potPin) = 4 /\
  (forall a b, gateResult 4 a b = 0) /\
  List.length logicNames = 4%nat /\
  nth_error logicNames
    (Z.to_nat (gateIndex (analogRead (readings 202 HIGH 1023 0 0 0) potPin)))
  = None /\
  exists st',
    logicGateMode (readings 202 HIGH 1023 0 0 0) booted = Undefined st' /\
    ShiftRegister.shifted (leds st') = 0 /\
    ShiftRegister.outputs (leds st') = 0.
Proof.
  split; [reflexivity |].
  apply (logicGateMode_selector_max (readings 202 HIGH 1023 0 0 0) booted).
  reflexivity.
Defined.

(** C6. When the gate index is one of 0..3, Logic-Gate mode takes operand A
    from switch bits 0..3 and operand B from bits 4..7, and shifts out to
    the LEDs the 4-bit value whose bit [i] is the AND, OR, XOR or XNOR
    (by index) of bit [i] of A and of B, the upper four bits being zero.
    Each index is selected by some reading, and for A = 1010b, B = 1100b
    the four results are 1000b, 1110b, 0110b and 1001b. *)
Theorem logicGateMode_computes_gate (e : Env) (st : State) :
  0 <= gateIndex (analogRead e potPin) <= 3 ->
  (exists gate st',
     nth_error gates (Z.to_nat (gateIndex (analogRead e potPin))) = Some gate /\
     logicGateMode e st = Done tt st' /\
     ShiftRegister.shifted (leds st')
     = gate_spec gate (switchVector e mod 16) (switchVector e / 16) /\
     ShiftRegister.outputs (leds st')
     = gate_spec gate (switchVector e mod 16) (switchVector e / 16) /\
     0 <= ShiftRegister.outputs (leds st') < 16) /\
  (gateIndex 0 = 0 /\ gateIndex 256 = 1 /\ gateIndex 512 = 2 /\ gateIndex 768 = 3) /\
  (gateResult GATE_AND 10 12 = 8 /\ gateResult GATE_OR 10 12 = 14 /\
   gateResult GATE_XOR 10 12 = 6 /\ gateResult GATE_XNOR 10 12 = 9).
Proof.
  intros H.
  split; [| split; repeat split].
  destruct (gateIndex_names _ H) as (gate & name & Hg & Hn).
  destruct (operands_range e) as [Ha Hb].
  destruct (gateResult_gate_spec _ _ _ _ Hg H Ha Hb) as [Hr Hlt].
  exists gate. eexists. split; [exact Hg |].
  split; [apply (logicGateMode_run e st name Hn) |].
  unfold shown. cbn [leds with_lcd with_leds].
  rewrite push_outputs, readOperands_switchVector. cbn [fst snd ShiftRegister.shifted ShiftRegister.outputs].
  assert (Hbyte : to_byte (gateResult (gateIndex (analogRead e potPin))
                             (switchVector e mod 16) (switchVector e / 16))
                  = gate_spec gate (switchVector e mod 16) (switchVector e / 16)).
  { rewrite <- Hr. unfold to_byte. apply Z.mod_small. lia. }
  rewrite Hbyte. rewrite <- Hr. repeat split; lia.
Qed.

Lemma logicGateMode_computes_gate_witness :
  0 <= gateIndex (analogRead (readings 202 HIGH 800 0 0 0) potPin) <= 3 /\
  ((exists gate st',
      nth_error gates
        (Z.to_nat (gateIndex (analogRead (readings 202 HIGH 800 0 0 0) potPin)))
      = Some gate /\
      logicGateMode (readings 202 HIGH 800 0 0 0) booted = Done tt st' /\
      ShiftRegister.shifted (leds st')
      = gate_spec gate (switchVector (readings 202 HIGH 800 0 0 0) mod 16)
          (switchVector (readings 202 HIGH 800 0 0 0) / 16) /\
      ShiftRegister.outputs (leds st')
      = gate_spec gate (switchVector (readings 202 HIGH 800 0 0 0) mod 16)
          (switchVector (readings 202 HIGH 800 0 0 0) / 16) /\
      0 <= ShiftRegister.outputs (leds st') < 16) /\
   (gateIndex 0 = 0 /\ gateIndex 256 = 1 /\ gateIndex 512 = 2 /\ gateIndex 768 = 3) /\
   (gateResult GATE_AND 10 12 = 8 /\ gateResult GATE_OR 10 12 = 14 /\
    gateResult GATE_XOR 10 12 = 6 /\ gateResult GATE_XNOR 10 12 = 9)).
Proof.
  split; [vm_compute; split; discriminate |].
  apply (logicGateMode_computes_gate (readings 202 HIGH 800 0 0 0) booted).
  vm_compute; split; discriminate.
Defined.

(** ** Quiz mode *)

Lemma print_row1_home t d :
  Lcd.print t (Lcd.setCursor 0 1 d)
  = Lcd.mk (Lcd.row0 d) (Lcd.overlay (list_ascii_of_string t) (Lcd.row1 d))
      (String.length t) 1.
Proof.
  unfold Lcd.print.
  rewrite (write_chars_row1 _ _ [] (Lcd.row1 d));
    [| reflexivity | reflexivity | symmetry; apply overlay_nil_l ].
  simpl. now rewrite string_length_chars.
Qed.

Lemma random_byte raw :
  0 <= raw <= RANDOM_MAX ->
  to_byte (random 0 256 raw) = raw mod 256.
Proof.
  intros H. unfold random, random_below. cbn [Z.leb Z.compare Z.sub Z.eqb Z.opp Z.add].
  rewrite Z.add_0_r, Z.rem_mod_nonneg by lia.
  unfold to_byte. apply Z.mod_mod. lia.
Qed.

(** Each target is the image of as many outputs of the generator as any
    other. *)
Lemma random_byte_equidistributed T raw :
  0 <= T <= 255 ->
  0 <= raw <= RANDOM_MAX ->
  to_byte (random 0 256 raw) = T <->
  exists k, 0 <= k < 2 ^ 23 /\ raw = 256 * k + T.
Proof.
  intros HT Hraw. rewrite random_byte by exact Hraw.
  unfold RANDOM_MAX in Hraw.
  split.
  - intros E. exists (raw / 256).
    pose proof (Z.div_mod raw 256 ltac:(lia)) as D.
    split; [| lia].
    split; [apply Z.div_pos; lia | apply Z.div_lt_upper_bound; lia].
  - intros (k & Hk & ->).
    rewrite Z.add_comm, Z.mul_comm, Z.mod_add by lia.
    apply Z.mod_small. lia.
Qed.

(** C9. On a pass of Quiz mode with a question on display and a switch
    vector different from the target, row 0 of the display, the target and
    the question flag stay as they were, and row 1 receives "Incorrect"
    with six blanks from its first column (its sixteenth cell is kept). *)
Theorem quizMode_mismatch_keeps_question (e : Env) (st : State) :
  questionDisplayed st = true ->
  switchVector e <> quizTarget st ->
  Lcd.wf (lcd st) ->
  exists st',
    quizMode e st = Done tt st' /\
    Lcd.row0 (lcd st') = Lcd.row0 (lcd st) /\
    Lcd.row1 (lcd st')
    = (list_ascii_of_string "Incorrect      " ++ skipn 15 (Lcd.row1 (lcd st)))%list /\
    quizTarget st' = quizTarget st /\
    questionDisplayed st' = questionDisplayed st /\
    draws st' = draws st /\
    pauses st' = pauses st /\
    currentMode st' = currentMode st.
Proof.
  intros Hq Hne [W0 W1].
  eexists. split.
  - apply quizMode_incorrect; [exact Hq |].
    now rewrite readSwitches_switchVector.
  - cbn [lcd with_lcd with_leds quizTarget questionDisplayed draws pauses
         currentMode].
    rewrite print_row1_home. cbn [Lcd.row0 Lcd.row1].
    rewrite overlay_text by (rewrite W1; cbn; lia).
    repeat split.
Qed.

Lemma quizMode_mismatch_keeps_question_witness :
  questionDisplayed asked = true /\
  switchVector (readings 5 HIGH 0 0 0 0)
  <> quizTarget asked /\
  Lcd.wf (lcd asked) /\
  exists st',
    quizMode (readings 5 HIGH 0 0 0 0)
      asked = Done tt st' /\
    Lcd.row0 (lcd st')
    = Lcd.row0 (lcd asked) /\
    Lcd.row1 (lcd st')
    = (list_ascii_of_string "Incorrect      "
       ++ skipn 15 (Lcd.row1 (lcd asked)))%list /\
    quizTarget st' = quizTarget asked /\
    questionDisplayed st'
    = questionDisplayed asked /\
    draws st' = draws asked /\
    pauses st' = pauses asked /\
    currentMode st' = currentMode asked.
Proof.
  split; [reflexivity |].
  split; [vm_compute; discriminate |].
  split; [split; reflexivity |].
  apply (quizMode_mismatch_keeps_question (readings 5 HIGH 0 0 0 0)
           asked).
  - reflexivity.
  - vm_compute; discriminate.
  - split; reflexivity.
Defined.

(** C8. On a pass of Quiz mode with a question on display and a switch
    vector equal to the target, the display is cleared and shows
    "Correct!", one pause of 1000 ms is made, and the question flag is
    reset without any draw.  The next pass of Quiz mode then calls the
    generator once and stores its output reduced to a byte as the target
    (each byte being the image of as many generator outputs as any other),
    sets the flag again and makes no pause; the pass after that draws
    nothing. *)
Theorem quizMode_match_then_new_target (e : Env) (st : State) :
  questionDisplayed st = true ->
  switchVector e = quizTarget st ->
  exists st1,
    quizMode e st = Done tt st1 /\
    Lcd.row0 (lcd st1) = list_ascii_of_string "Correct!        " /\
    Lcd.row1 (lcd st1) = Lcd.blank /\
    pauses st1 = (pauses st ++ [1000])%list /\
    questionDisplayed st1 = false /\
    draws st1 = draws st /\
    (forall e', exists st2,
        quizMode e' st1 = Done tt st2 /\
        draws st2 = S (draws st) /\
        quizTarget st2 = to_byte (random 0 256 (libc_random e')) /\
        0 <= quizTarget st2 <= 255 /\
        questionDisplayed st2 = true /\
        pauses st2 = pauses st1 /\
        (forall e'', draws (state_of (quizMode e'' st2)) = draws st2)) /\
    (forall T raw, 0 <= T <= 255 -> 0 <= raw <= RANDOM_MAX ->
        to_byte (random 0 256 raw) = T <->
        exists k, 0 <= k < 2 ^ 23 /\ raw = 256 * k + T).
Proof.
  intros Hq Hs.
  eexists. split.
  { apply quizMode_correct; [exact Hq |].
    now rewrite readSwitches_switchVector. }
  cbn [lcd with_lcd with_leds log_pause set_questionDisplayed pauses
       questionDisplayed draws].
  split; [reflexivity | split; [reflexivity | split; [reflexivity |]]].
  split; [reflexivity | split; [reflexivity |]].
  split; [| intros T raw; apply random_byte_equidistributed].
  intros e'. eexists. split.
  { apply quizMode_ask. reflexivity. }
  cbn [set_questionDisplayed with_lcd set_quizTarget count_draw draws
       quizTarget questionDisplayed pauses with_leds log_pause].
  split; [reflexivity | split; [reflexivity |]].
  split; [unfold to_byte; pose proof (Z.mod_pos_bound (random 0 256 (libc_random e')) 256); lia |].
  split; [reflexivity | split; [reflexivity |]].
  intros e''.
  match goal with |- draws (state_of (quizMode e'' ?s)) = _ => set (s2 := s) end.
  destruct (Z.eq_dec (readSwitches e'') (quizTarget s2)) as [E|E].
  - rewrite quizMode_correct by (try exact E; reflexivity). reflexivity.
  - rewrite quizMode_incorrect by (try exact E; reflexivity). reflexivity.
Qed.

Lemma quizMode_match_then_new_target_witness :
  questionDisplayed asked = true /\
  switchVector (readings 135 HIGH 0 0 0 0)
  = quizTarget asked /\
  exists st1,
    quizMode (readings 135 HIGH 0 0 0 0)
      asked = Done tt st1 /\
    Lcd.row0 (lcd st1) = list_ascii_of_string "Correct!        " /\
    Lcd.row1 (lcd st1) = Lcd.blank /\
    pauses st1
    = (pauses asked ++ [1000])%list /\
    questionDisplayed st1 = false /\
    draws st1 = draws asked /\
    (forall e', exists st2,
        quizMode e' st1 = Done tt st2 /\
        draws st2 = S (draws asked) /\
        quizTarget st2 = to_byte (random 0 256 (libc_random e')) /\
        0 <= quizTarget st2 <= 255 /\
        questionDisplayed st2 = true /\
        pauses st2 = pauses st1 /\
        (forall e'', draws (state_of (quizMode e'' st2)) = draws st2)) /\
    (forall T raw, 0 <= T <= 255 -> 0 <= raw <= RANDOM_MAX ->
        to_byte (random 0 256 raw) = T <->
        exists k, 0 <= k < 2 ^ 23 /\ raw = 256 * k + T).
Proof.
  split; [reflexivity | split; [reflexivity |]].
  apply (quizMode_match_then_new_target (readings 135 HIGH 0 0 0 0)
           asked);
    reflexivity.
Defined.

(** ** The edge detector and the mode controller *)

Lemma handleModeSwitch_run e s :
  exists s',
    handleModeSwitch e s = Done tt s' /\
    currentMode s'
    = (if pressConfirmed e s
       then to_byte (Z.rem (currentMode s + 1) totalModes)
       else currentMode s) /\
    buttonPressed s'
    = (if steady e s then Bool.eqb (level e) LOW else buttonPressed s) /\
    lastDebounce s'
    = (if Bool.eqb (level e) (lastButtonState s) then lastDebounce s
       else to_ulong (millis1 e)) /\
    lastButtonState s' = level e /\
    questionDisplayed s'
    = (if pressConfirmed e s then false else questionDisplayed s) /\
    quizTarget s' = quizTarget s /\
    leds s' = leds s /\
    draws s' = draws s /\
    pauses s' = pauses s /\
    (Lcd.wf (lcd s) -> Lcd.wf (lcd s')).
Proof.
  destruct s as [m lb ld bp qt qd d r n p].
  unfold handleModeSwitch, pressConfirmed, steady, level.
  destruct (digitalRead e modeButtonPin), lb;
    cbv [HIGH LOW Bool.eqb negb]; run_sketch;
    destruct (_ >? debounceDelay); cbv [andb negb Bool.eqb];
    destruct bp; cbv [andb negb Bool.eqb];
    repeat match goal with
      | |- context [if ?c then _ else _] => destruct c
      end;
    eexists; (split; [reflexivity |]);
    repeat match goal with
      | |- _ /\ _ => split; [reflexivity |]
      end;
    intros W; first [exact W | split; reflexivity].
Qed.

Lemma dispatch_same_controller e mode s :
  same_controller s (state_of (dispatch e mode s)).
Proof.
  unfold dispatch.
  destruct (mode =? 0); [rewrite manualMode_run; repeat split |].
  destruct (mode =? 1).
  { destruct (questionDisplayed s) eqn:Q.
    - destruct (Z.eq_dec (readSwitches e) (quizTarget s)) as [E|E].
      + rewrite quizMode_correct by assumption. repeat split.
      + rewrite quizMode_incorrect by assumption. repeat split.
    - rewrite quizMode_ask by assumption. repeat split. }
  destruct (mode =? 2).
  { destruct (nth_error logicNames (Z.to_nat (gateIndex (analogRead e potPin))))
      as [name|] eqn:N.
    - rewrite (logicGateMode_run e s name N). repeat split.
    - rewrite (logicGateMode_out_of_bounds e s N). repeat split. }
  destruct (mode =? 3); [rewrite adcMode_run; repeat split |].
  repeat split.
Qed.

Lemma loop_same_controller e s :
  same_controller (state_of (handleModeSwitch e s)) (state_of (loop e s)).
Proof.
  destruct (handleModeSwitch_run e s) as (s1 & Hrun & _).
  unfold loop, bind at 1. rewrite Hrun. cbn [state_of].
  unfold bind at 1, get.
  pose proof (dispatch_same_controller e (currentMode s1) s1) as D.
  unfold bind. destruct (dispatch e (currentMode s1) s1) as [[] s2|s2];
    cbn [state_of] in *; exact D.
Qed.

Lemma loop_currentMode e s :
  currentMode (state_of (loop e s))
  = (if pressConfirmed e s
     then to_byte (Z.rem (currentMode s + 1) totalModes)
     else currentMode s).
Proof.
  destruct (loop_same_controller e s) as (Hm & _).
  destruct (handleModeSwitch_run e s) as (s1 & Hrun & Hmode & _).
  rewrite Hrun in Hm. cbn [state_of] in Hm. now rewrite Hm.
Qed.

Lemma next_mode m :
  0 <= m < 4 -> to_byte (Z.rem (m + 1) totalModes) = (m + 1) mod 4.
Proof.
  intros H. unfold totalModes, to_byte.
  rewrite Z.rem_mod_nonneg by lia.
  apply Z.mod_small. pose proof (Z.mod_pos_bound (m + 1) 4). lia.
Qed.

Lemma runLoop_currentMode ticks : forall s,
  0 <= currentMode s < 4 ->
  currentMode (state_of (runLoop ticks s))
  = (currentMode s + Z.of_nat (pressCount ticks s)) mod 4.
Proof.
  induction ticks as [|e ticks IH]; intros s Hs.
  - cbn. rewrite Z.add_0_r, Z.mod_small; lia.
  - cbn [runLoop pressCount].
    pose proof (loop_currentMode e s) as Hm.
    assert (Hstep : currentMode (state_of (loop e s))
                    = (currentMode s
                       + Z.of_nat (if pressConfirmed e s then 1 else 0)) mod 4).
    { rewrite Hm. destruct (pressConfirmed e s).
      - apply next_mode; exact Hs.
      - cbn. rewrite Z.add_0_r, Z.mod_small; lia. }
    destruct (loop e s) as [[] s'|s']; cbn [state_of] in *.
    + rewrite IH by (rewrite Hstep; apply Z.mod_pos_bound; lia).
      rewrite Hstep, Nat2Z.inj_add, Zplus_mod_idemp_l. f_equal. lia.
    + rewrite Hstep, Nat.add_0_r. reflexivity.
Qed.

(** C5. The sketch enters [loop()] in mode 0, Manual.  After any passes of
    [loop()], of which N confirmed a press, the mode number is N mod 4 and
    the mode function run next is the one at that place of the cyclic order
    Manual, Quiz, LogicGate, Adc.  A pass that confirms no press leaves the
    mode number as it was; one that confirms a press steps it by one,
    modulo 4. *)
Theorem mode_is_press_count_mod_4 (ticks : list Env) (e : Env) (st : State) :
  currentMode booted = 0 /\
  currentMode (state_of (runLoop ticks booted))
  = Z.of_nat (pressCount ticks booted) mod 4 /\
  dispatch e (currentMode (state_of (runLoop ticks booted)))
  = nth (Z.to_nat (Z.of_nat (pressCount ticks booted) mod 4))
      (modeFunctions e) (ret tt) /\
  currentMode (state_of (loop e st))
  = (if pressConfirmed e st
     then to_byte (Z.rem (currentMode st + 1) totalModes)
     else currentMode st) /\
  to_byte (Z.rem (0 + 1) totalModes) = 1 /\
  to_byte (Z.rem (1 + 1) totalModes) = 2 /\
  to_byte (Z.rem (2 + 1) totalModes) = 3 /\
  to_byte (Z.rem (3 + 1) totalModes) = 0.
Proof.
  assert (H : currentMode (state_of (runLoop ticks booted))
              = Z.of_nat (pressCount ticks booted) mod 4).
  { rewrite runLoop_currentMode by (cbn; lia). reflexivity. }
  split; [reflexivity | split; [exact H |]].
  split; [| split; [apply loop_currentMode | repeat split]].
  rewrite H.
  pose proof (Z.mod_pos_bound (Z.of_nat (pressCount ticks booted)) 4
                ltac:(lia)) as B.
  set (m := Z.of_nat (pressCount ticks booted) mod 4) in *.
  assert (C : m = 0 \/ m = 1 \/ m = 2 \/ m = 3) by lia.
  destruct C as [-> | [-> | [-> | ->]]]; reflexivity.
Qed.

Lemma afterSamples_detector hist :
  lastButtonState (afterSamples hist) = lastLevel hist /\
  lastDebounce (afterSamples hist) = stableSince hist /\
  buttonPressed (afterSamples hist) = latched hist.
Proof.
  induction hist as [|e older (IHl & IHd & IHp)].
  - repeat split.
  - cbn [afterSamples fold_right].
    fold (afterSamples older).
    destruct (handleModeSwitch_run e (afterSamples older))
      as (s' & Hrun & _ & Hbp & Hld & Hlb & _).
    rewrite Hrun. cbn [state_of].
    split; [exact Hlb | split].
    + rewrite Hld, IHl, IHd. reflexivity.
    + rewrite Hbp. unfold steady. fold (level e). rewrite IHl, IHd, IHp.
      cbn [latched heldFor stableSince].
      destruct (Bool.eqb (level e) (lastLevel older)); reflexivity.
Qed.

Lemma confirmedPress_latch hist :
  confirmedPress hist = pressedLongEnough hist && negb (latched (tl hist)).
Proof.
  destruct hist as [|e older]; [reflexivity |].
  destruct (afterSamples_detector older) as (Hl & Hd & Hp).
  unfold confirmedPress, pressConfirmed, pressedLongEnough, steady.
  fold (level e). rewrite Hl, Hd, Hp.
  cbn [tl lastLevel heldFor stableSince].
  destruct (Bool.eqb (level e) (lastLevel older)); cbn [negb];
    destruct (_ >? debounceDelay), (Bool.eqb (level e) LOW); reflexivity.
Qed.

Lemma pressedLongEnough_latched hist :
  pressedLongEnough hist = true -> latched hist = true.
Proof.
  destruct hist as [|e older]; [discriminate |].
  unfold pressedLongEnough. cbn [lastLevel latched].
  intros H. apply andb_prop in H. destruct H as [H1 H2].
  rewrite H2. exact H1.
Qed.

Lemma latched_while_held later : forall hist,
  latched hist = true ->
  Forall (fun x => level x = LOW) later ->
  latched (later ++ hist) = true.
Proof.
  induction later as [|x later IH]; intros hist H F; [exact H |].
  inversion F as [|? ? Hx F']; subst.
  cbn [app latched].
  destruct (_ >? debounceDelay).
  - rewrite Hx. reflexivity.
  - apply IH; assumption.
Qed.

Lemma handleModeSwitch_same_controller e s1 s2 :
  same_controller s1 s2 ->
  same_controller (state_of (handleModeSwitch e s1))
    (state_of (handleModeSwitch e s2)).
Proof.
  intros (Hm & Hl & Hd & Hp).
  destruct (handleModeSwitch_run e s1) as (t1 & R1 & M1 & P1 & D1 & L1 & _).
  destruct (handleModeSwitch_run e s2) as (t2 & R2 & M2 & P2 & D2 & L2 & _).
  rewrite R1, R2. cbn [state_of].
  assert (S : steady e s2 = steady e s1) by (unfold steady; now rewrite Hl, Hd).
  assert (C : pressConfirmed e s2 = pressConfirmed e s1)
    by (unfold pressConfirmed; now rewrite S, Hp).
  repeat split.
  - now rewrite M1, M2, C, Hm.
  - now rewrite L1, L2.
  - now rewrite D1, D2, Hl, Hd.
  - now rewrite P1, P2, S, Hp.
Qed.

(** In the running sketch the detector goes through the states it goes
    through alone: the passes of [loop()] over [ticks] leave the mode number
    and the detector's variables as the history of those samples does. *)
Lemma runLoop_detector ticks : forall s0 s s',
  same_controller s0 s ->
  runLoop ticks s = Done tt s' ->
  same_controller
    (fold_left (fun a e => state_of (handleModeSwitch e a)) ticks s0) s'.
Proof.
  induction ticks as [|e ticks IH]; intros s0 s s' H R.
  - cbn in R. injection R as <-. exact H.
  - cbn [runLoop] in R. cbn [fold_left].
    pose proof (loop_same_controller e s) as (Lm & Ll & Ld & Lp).
    pose proof (handleModeSwitch_same_controller e s0 s H) as (Km & Kl & Kd & Kp).
    destruct (loop e s) as [[] s1|s1]; [| discriminate].
    cbn [state_of] in *.
    apply (IH _ s1 s'); [| exact R].
    repeat split; congruence.
Qed.

Lemma runLoop_afterSamples ticks s' :
  runLoop ticks booted = Done tt s' ->
  same_controller (afterSamples (rev ticks)) s'.
Proof.
  intros R. unfold afterSamples. rewrite fold_left_rev_right.
  apply (runLoop_detector ticks booted booted s'); [repeat split | exact R].
Qed.

(** C4, as stated, fails.  In the history [pressReleasePress] the newest
    sample is the first at which the second press has been held for longer
    than the window after a transition from released, so the stated rule
    wants an event there; the detector confirms none, the latch of the
    first press being still set, nor at the sample after it; the first
    press had been confirmed at its second sample. *)
Lemma second_press_after_short_release_is_dropped :
  claimedEvent pressReleasePress = true /\
  confirmedPress pressReleasePress = false /\
  confirmedPress (readings 0 LOW 0 0 600 0 :: pressReleasePress) = false /\
  confirmedPress (skipn 3 pressReleasePress) = true.
Proof. repeat split. Qed.

(** C4, amended.  The detector confirms a press at a sample exactly when
    the pressed level has been held there for longer than the window since
    it changed from released and the latch is clear, that is, the last
    earlier sample whose level had been held for longer than the window, if
    any, was a released one.  Against the stated rule: every event is one
    the rule wants, and the rule's events that are missing are those with
    the latch set.  While the button stays pressed after an event no further
    event is confirmed, and a press held for no longer than the window at a
    sample confirms nothing there. *)
Theorem confirmedPress_iff_held_and_unlatched (hist later : list Env) :
  confirmedPress hist = pressedLongEnough hist && negb (latched (tl hist)) /\
  confirmedPress hist = claimedEvent hist && negb (latched (tl hist)) /\
  (confirmedPress hist = true ->
   later <> [] ->
   Forall (fun x => level x = LOW) later ->
   confirmedPress (later ++ hist) = false) /\
  (heldFor hist <= debounceDelay -> confirmedPress hist = false).
Proof.
  pose proof (confirmedPress_latch hist) as E.
  split; [exact E | split; [| split]].
  - rewrite E. unfold claimedEvent.
    destruct (pressedLongEnough (tl hist)) eqn:P.
    + rewrite (pressedLongEnough_latched _ P). cbn.
      now rewrite !andb_false_r.
    + cbn. now rewrite andb_true_r.
  - intros Hev Hne Hheld.
    destruct later as [|x later]; [contradiction |].
    rewrite (confirmedPress_latch ((x :: later) ++ hist)).
    cbn [app tl].
    inversion Hheld as [|? ? Hx Hrest]; subst.
    rewrite latched_while_held; [now rewrite andb_false_r | | exact Hrest].
    apply pressedLongEnough_latched.
    rewrite E in Hev. apply andb_prop in Hev. tauto.
  - intros Hshort. rewrite E. unfold pressedLongEnough.
    destruct (heldFor hist >? debounceDelay) eqn:G.
    + apply Z.gtb_lt in G. lia.
    + now rewrite andb_false_r.
Qed.

Lemma confirmedPress_iff_held_and_unlatched_witness :
  confirmedPress (skipn 3 pressReleasePress) = true /\
  [readings 0 LOW 0 0 300 0] <> [] /\
  Forall (fun x => level x = LOW) [readings 0 LOW 0 0 300 0] /\
  confirmedPress ([readings 0 LOW 0 0 300 0] ++ skipn 3 pressReleasePress) = false /\
  heldFor (skipn 4 pressReleasePress) <= debounceDelay /\
  confirmedPress (skipn 4 pressReleasePress) = false.
Proof.
  split; [reflexivity |].
  split; [discriminate |].
  split; [repeat constructor |].
  split.
  - apply (confirmedPress_iff_held_and_unlatched
             (skipn 3 pressReleasePress) [readings 0 LOW 0 0 300 0]).
    + reflexivity.
    + discriminate.
    + repeat constructor.
  - split; [vm_compute; discriminate |].
    apply (confirmedPress_iff_held_and_unlatched (skipn 4 pressReleasePress) []).
    vm_compute; discriminate.
Defined.

(** ** The display keeps its sixteen columns *)

Lemma dispatch_wf e mode s :
  Lcd.wf (lcd s) -> Lcd.wf (lcd (state_of (dispatch e mode s))).
Proof.
  intros W. unfold dispatch.
  destruct (mode =? 0);
    [rewrite manualMode_run; apply render_wf, W |].
  destruct (mode =? 1).
  { destruct (questionDisplayed s) eqn:Q.
    - destruct (Z.eq_dec (readSwitches e) (quizTarget s)) as [E|E].
      + rewrite quizMode_correct by assumption. split; reflexivity.
      + rewrite quizMode_incorrect by assumption.
        apply print_wf, setCursor_wf, W.
    - rewrite quizMode_ask by assumption. apply render_wf, clear_wf. }
  destruct (mode =? 2).
  { destruct (nth_error logicNames (Z.to_nat (gateIndex (analogRead e potPin))))
      as [name|] eqn:N.
    - rewrite (logicGateMode_run e s name N). apply render_wf, W.
    - rewrite (logicGateMode_out_of_bounds e s N).
      apply print_wf, setCursor_wf, W. }
  destruct (mode =? 3); [rewrite adcMode_run; apply render_wf, W | exact W].
Qed.

Lemma loop_wf e s :
  Lcd.wf (lcd s) -> Lcd.wf (lcd (state_of (loop e s))).
Proof.
  intros W.
  destruct (handleModeSwitch_run e s) as (s1 & Hrun & H).
  assert (W1 : Lcd.wf (lcd s1)) by (apply H, W).
  unfold loop, bind at 1. rewrite Hrun.
  unfold bind at 1, get.
  pose proof (dispatch_wf e (currentMode s1) s1 W1) as D.
  unfold bind. destruct (dispatch e (currentMode s1) s1) as [[] s2|s2];
    cbn [state_of] in *; exact D.
Qed.

(** Every state the sketch reaches has a display of sixteen columns. *)
Lemma runLoop_wf ticks : forall s,
  Lcd.wf (lcd s) -> Lcd.wf (lcd (state_of (runLoop ticks s))).
Proof.
  induction ticks as [|e ticks IH]; intros s W; [exact W |].
  cbn [runLoop]. pose proof (loop_wf e s W) as L.
  destruct (loop e s) as [[] s'|s']; cbn [state_of] in *; auto.
Qed.

(** ** Repeated passes on the same readings *)

Lemma shown_idem v t0 t1 s :
  shown v t0 t1 (shown v t0 t1 s) = shown v t0 t1 s.
Proof.
  unfold shown, with_lcd, with_leds.
  cbn [currentMode lastButtonState lastDebounce buttonPressed quizTarget
       questionDisplayed lcd leds draws pauses].
  now rewrite render_idem, !push_outputs.
Qed.

Lemma repeated_fixed m s s' n :
  m s = Done tt s' -> m s' = Done tt s' ->
  repeated (S n) m s = Done tt s'.
Proof.
  intros H1 H2. cbn [repeated]. unfold bind at 1. rewrite H1.
  induction n as [|n IH]; [reflexivity |].
  cbn [repeated]. unfold bind at 1. rewrite H2. exact IH.
Qed.

(** Manual mode, ADC mode and, for a gate index within 0..3, Logic-Gate
    mode: any number of passes on the same readings leaves the state that
    one pass leaves, display text and LED byte included. *)
Lemma manualMode_repeatable e s n :
  repeated (S n) (manualMode e) s = manualMode e s.
Proof.
  rewrite manualMode_run. apply repeated_fixed; rewrite manualMode_run;
    [reflexivity | now rewrite shown_idem].
Qed.

Lemma adcMode_repeatable e s n :
  repeated (S n) (adcMode e) s = adcMode e s.
Proof.
  rewrite adcMode_run. apply repeated_fixed; rewrite adcMode_run;
    [reflexivity | cbv zeta; now rewrite shown_idem].
Qed.

Lemma logicGateMode_repeatable e s n :
  0 <= gateIndex (analogRead e potPin) <= 3 ->
  repeated (S n) (logicGateMode e) s = logicGateMode e s
  /\ exists s', logicGateMode e s = Done tt s'.
Proof.
  intros H. destruct (gateIndex_names _ H) as (gate & name & _ & Hn).
  rewrite (logicGateMode_run e s name Hn). split; [| eexists; reflexivity].
  apply repeated_fixed; rewrite (logicGateMode_run e _ name Hn);
    [reflexivity | now rewrite shown_idem].
Qed.

(** C10 at its failing input.  With the selector at 1023 a pass of
    Logic-Gate mode reads the gate name outside the table: the pass has no
    defined outcome, and so no display text to repeat. *)
Theorem logicGateMode_undefined_at_selector_max :
  (exists s', logicGateMode (readings 202 HIGH 1023 0 0 0) booted = Undefined s') /\
  (forall s', logicGateMode (readings 202 HIGH 1023 0 0 0) booted <> Done tt s') /\
  (forall n s',
      repeated (S n) (logicGateMode (readings 202 HIGH 1023 0 0 0)) booted
      <> Done tt s').
Proof.
  assert (E : exists s', logicGateMode (readings 202 HIGH 1023 0 0 0) booted
                         = Undefined s').
  { eexists. apply logicGateMode_out_of_bounds. reflexivity. }
  destruct E as (s1 & E).
  split; [exists s1; exact E |].
  split; [intros s'; rewrite E; discriminate |].
  intros n s'. cbn [repeated]. unfold bind at 1. rewrite E. discriminate.
Qed.


(* ================================================================== *)
(** * Part III: the passes as a whole                                  *)
(* ================================================================== *)

(** ** handleModeSwitch, case by case *)

Lemma handleModeSwitch_confirmed e s :
  pressConfirmed e s = true ->
  exists s',
    handleModeSwitch e s = Done tt s' /\
    currentMode s' = to_byte (Z.rem (currentMode s + 1) totalModes) /\
    lcd s'
    = Lcd.print (modeBanner (to_byte (Z.rem (currentMode s + 1) totalModes)))
        (Lcd.setCursor 0 0 (Lcd.clear (lcd s))) /\
    questionDisplayed s' = false /\
    buttonPressed s' = true /\
    quizTarget s' = quizTarget s /\
    leds s' = leds s /\
    draws s' = draws s /\
    pauses s' = pauses s.
Proof.
  destruct s as [m lb ld bp qt qd d r n p].
  unfold handleModeSwitch, pressConfirmed, steady, level, modeBanner.
  destruct (digitalRead e modeButtonPin), lb;
    cbv [HIGH LOW Bool.eqb negb]; run_sketch;
    destruct (_ >? debounceDelay); cbv [andb negb Bool.eqb];
    destruct bp; cbv [andb negb Bool.eqb];
    try discriminate; intros _;
    repeat match goal with
      | |- context [if ?c then _ else _] => destruct c
      end;
    eexists; (split; [reflexivity |]); repeat split.
Qed.

(** X1. A call of handleModeSwitch that confirms no press assigns only the
    detector's three variables: the mode number, the display, the quiz
    variables, the LEDs and the logs are as they were. *)
Theorem handleModeSwitch_without_press (e : Env) (s : State) :
  pressConfirmed e s = false ->
  handleModeSwitch e s = Done tt (sampled e s) /\
  currentMode (sampled e s) = currentMode s /\
  lcd (sampled e s) = lcd s /\
  quizTarget (sampled e s) = quizTarget s /\
  questionDisplayed (sampled e s) = questionDisplayed s /\
  leds (sampled e s) = leds s /\
  draws (sampled e s) = draws s /\
  pauses (sampled e s) = pauses s.
Proof.
  intros H. split; [| repeat split].
  revert H. destruct s as [m lb ld bp qt qd d r n p].
  unfold handleModeSwitch, pressConfirmed, sampled, steady, level.
  destruct (digitalRead e modeButtonPin), lb;
    cbv [HIGH LOW Bool.eqb negb]; run_sketch;
    destruct (_ >? debounceDelay); cbv [andb negb Bool.eqb];
    destruct bp; cbv [andb negb Bool.eqb];
    try discriminate; intros _; reflexivity.
Qed.

Lemma handleModeSwitch_without_press_witness :
  pressConfirmed (readings 0 LOW 0 0 100 0) booted = false /\
  handleModeSwitch (readings 0 LOW 0 0 100 0) booted
  = Done tt (sampled (readings 0 LOW 0 0 100 0) booted) /\
  currentMode (sampled (readings 0 LOW 0 0 100 0) booted) = currentMode booted /\
  lcd (sampled (readings 0 LOW 0 0 100 0) booted) = lcd booted /\
  quizTarget (sampled (readings 0 LOW 0 0 100 0) booted) = quizTarget booted /\
  questionDisplayed (sampled (readings 0 LOW 0 0 100 0) booted)
  = questionDisplayed booted /\
  leds (sampled (readings 0 LOW 0 0 100 0) booted) = leds booted /\
  draws (sampled (readings 0 LOW 0 0 100 0) booted) = draws booted /\
  pauses (sampled (readings 0 LOW 0 0 100 0) booted) = pauses booted.
Proof.
  split; [reflexivity |].
  apply (handleModeSwitch_without_press (readings 0 LOW 0 0 100 0) booted).
  reflexivity.
Defined.

(** ** When a pass of [loop()] is defined, and for how long it blocks *)

Lemma dispatch_outcome e mode s :
  (exists s', dispatch e mode s = Done tt s') \/
  (mode = 2 /\
   nth_error logicNames (Z.to_nat (gateIndex (analogRead e potPin))) = None /\
   exists s', dispatch e mode s = Undefined s').
Proof.
  unfold dispatch.
  destruct (mode =? 0); [left; rewrite manualMode_run; eauto |].
  destruct (mode =? 1).
  { left. destruct (questionDisplayed s) eqn:Q.
    - destruct (Z.eq_dec (readSwitches e) (quizTarget s)) as [E|E].
      + rewrite quizMode_correct by assumption. eauto.
      + rewrite quizMode_incorrect by assumption. eauto.
    - rewrite quizMode_ask by assumption. eauto. }
  destruct (Z.eqb_spec mode 2) as [E2|E2].
  { destruct (nth_error logicNames (Z.to_nat (gateIndex (analogRead e potPin))))
      as [name|] eqn:N.
    - left. rewrite (logicGateMode_run e s name N). eauto.
    - right. rewrite (logicGateMode_out_of_bounds e s N). eauto. }
  destruct (mode =? 3); [left; rewrite adcMode_run; eauto | left; eauto].
Qed.

Lemma gateIndex_name_missing v :
  0 <= v <= 1023 ->
  nth_error logicNames (Z.to_nat (gateIndex v)) = None <-> v = 1023.
Proof.
  intros H. split.
  - intros N. destruct (Z.eq_dec v 1023) as [E|E]; [exact E | exfalso].
    assert (R : 0 <= gateIndex v <= 3).
    { rewrite gateIndex_quantized by lia. apply quantized_range. }
    destruct (gateIndex_names v R) as (_ & name & _ & Hn). congruence.
  - intros ->. reflexivity.
Qed.

Lemma loop_run e s :
  loop e s
  = match dispatch e (currentMode (state_of (handleModeSwitch e s)))
            (state_of (handleModeSwitch e s)) with
    | Done _ s2 => Done tt (log_pause 100 s2)
    | Undefined s2 => Undefined s2
    end.
Proof.
  destruct (handleModeSwitch_run e s) as (s1 & Hrun & _).
  unfold loop, bind at 1. rewrite Hrun. cbn [state_of].
  unfold bind at 1, get. unfold bind.
  destruct (dispatch e (currentMode s1) s1); reflexivity.
Qed.

(** X2. With the selector within its range, a pass of [loop()] has no
    defined outcome exactly when the mode after the mode switch is 2,
    Logic-Gate, and the selector reads 1023; every other pass runs to its
    end. *)
Theorem loop_undefined_only_at_selector_max (e : Env) (s : State) :
  0 <= analogRead e potPin <= 1023 ->
  ((exists s', loop e s = Undefined s') <->
   currentMode (state_of (handleModeSwitch e s)) = 2 /\
   analogRead e potPin = 1023) /\
  ((exists s', loop e s = Done tt s') <->
   ~ (currentMode (state_of (handleModeSwitch e s)) = 2 /\
      analogRead e potPin = 1023)).
Proof.
  intros R. rewrite loop_run.
  set (s1 := state_of (handleModeSwitch e s)).
  pose proof (gateIndex_name_missing _ R) as G.
  destruct (dispatch_outcome e (currentMode s1) s1)
    as [(s2 & D) | (M2 & N & s2 & D)]; rewrite D.
  - assert (NU : ~ (currentMode s1 = 2 /\ analogRead e potPin = 1023)).
    { intros [M2 P]. unfold dispatch in D. rewrite M2 in D.
      change (logicGateMode e s1 = Done tt s2) in D.
      rewrite (logicGateMode_out_of_bounds e s1) in D; [discriminate |].
      now apply G. }
    split; split.
    + intros (s' & A). discriminate.
    + intros A. contradiction.
    + intros _. exact NU.
    + intros _. eexists. reflexivity.
  - apply G in N. split; split.
    + intros _. split; assumption.
    + intros _. eexists. reflexivity.
    + intros (s' & A). discriminate.
    + intros A. exfalso. apply A. split; assumption.
Qed.

Lemma loop_undefined_only_at_selector_max_witness :
  0 <= analogRead (readings 0 HIGH 1023 0 0 0) potPin <= 1023 /\
  ((exists s', loop (readings 0 HIGH 1023 0 0 0) (set_currentMode 2 booted)
               = Undefined s') <->
   currentMode (state_of (handleModeSwitch (readings 0 HIGH 1023 0 0 0)
                            (set_currentMode 2 booted))) = 2 /\
   analogRead (readings 0 HIGH 1023 0 0 0) potPin = 1023) /\
  ((exists s', loop (readings 0 HIGH 1023 0 0 0) (set_currentMode 2 booted)
               = Done tt s') <->
   ~ (currentMode (state_of (handleModeSwitch (readings 0 HIGH 1023 0 0 0)
                               (set_currentMode 2 booted))) = 2 /\
      analogRead (readings 0 HIGH 1023 0 0 0) potPin = 1023)).
Proof.
  split; [vm_compute; split; discriminate |].
  apply (loop_undefined_only_at_selector_max (readings 0 HIGH 1023 0 0 0)
           (set_currentMode 2 booted)).
  vm_compute; split; discriminate.
Defined.

Lemma dispatch_pauses e mode s s' :
  dispatch e mode s = Done tt s' ->
  pauses s'
  = (pauses s
     ++ (if (mode =? 1) && questionDisplayed s && (switchVector e =? quizTarget s)
         then [1000] else []))%list.
Proof.
  unfold dispatch. rewrite <- readSwitches_switchVector.
  destruct (Z.eqb_spec mode 0) as [->|M0].
  { rewrite manualMode_run. intros [= <-]. cbn. now rewrite app_nil_r. }
  destruct (Z.eqb_spec mode 1) as [->|M1].
  { cbn [andb]. destruct (questionDisplayed s) eqn:Q.
    - destruct (Z.eqb_spec (readSwitches e) (quizTarget s)) as [E|E].
      + rewrite quizMode_correct by assumption. intros [= <-]. reflexivity.
      + rewrite quizMode_incorrect by assumption. intros [= <-].
        cbn. now rewrite app_nil_r.
    - rewrite quizMode_ask by assumption. intros [= <-].
      cbn. now rewrite app_nil_r. }
  cbn [andb]. rewrite app_nil_r.
  destruct (mode =? 2).
  { destruct (nth_error logicNames (Z.to_nat (gateIndex (analogRead e potPin))))
      as [name|] eqn:N.
    - rewrite (logicGateMode_run e s name N). intros [= <-]. reflexivity.
    - rewrite (logicGateMode_out_of_bounds e s N). discriminate. }
  destruct (mode =? 3).
  - rewrite adcMode_run. intros [= <-]. reflexivity.
  - intros [= <-]. reflexivity.
Qed.

(** X3. A pass of [loop()] that runs to its end blocks in [delay] for
    100 ms, and for 1000 ms before that exactly when, after the mode
    switch, the mode is Quiz with a question on display and the switches
    spell the target; no other pause is made. *)
Theorem loop_blocks (e : Env) (s s' : State) :
  loop e s = Done tt s' ->
  pauses s'
  = (pauses s
     ++ (if (currentMode (state_of (handleModeSwitch e s)) =? 1)
            && questionDisplayed (state_of (handleModeSwitch e s))
            && (switchVector e =? quizTarget s)
         then [1000; 100] else [100]))%list.
Proof.
  rewrite loop_run.
  destruct (handleModeSwitch_run e s)
    as (s1 & Hrun & _ & _ & _ & _ & _ & Hqt & _ & _ & Hp & _).
  rewrite Hrun. cbn [state_of].
  destruct (dispatch e (currentMode s1) s1) as [[] s2|s2] eqn:D;
    [| discriminate].
  intros [= <-]. cbn [pauses log_pause].
  rewrite (dispatch_pauses _ _ _ _ D), Hp, Hqt, <- app_assoc.
  destruct ((currentMode s1 =? 1) && questionDisplayed s1
            && (switchVector e =? quizTarget s)); reflexivity.
Qed.

Lemma loop_blocks_witness :
  loop (readings 135 HIGH 0 0 0 0) (set_currentMode 1 asked)
  = Done tt (state_of (loop (readings 135 HIGH 0 0 0 0) (set_currentMode 1 asked))) /\
  pauses (state_of (loop (readings 135 HIGH 0 0 0 0) (set_currentMode 1 asked)))
  = (pauses (set_currentMode 1 asked)
     ++ (if (currentMode (state_of (handleModeSwitch (readings 135 HIGH 0 0 0 0)
                                      (set_currentMode 1 asked))) =? 1)
            && questionDisplayed
                 (state_of (handleModeSwitch (readings 135 HIGH 0 0 0 0)
                              (set_currentMode 1 asked)))
            && (switchVector (readings 135 HIGH 0 0 0 0)
                =? quizTarget (set_currentMode 1 asked))
         then [1000; 100] else [100]))%list.
Proof.
  split; [reflexivity |].
  apply (loop_blocks (readings 135 HIGH 0 0 0 0) (set_currentMode 1 asked)).
  reflexivity.
Defined.

(** ** The analog rescaling as a function *)

(** X4. Over the readings 0..1023 the rescaled value never decreases with
    the reading, every byte is the value of some reading, and the top value
    255 is reached at the single reading 1023. *)
Theorem adcValue_monotone_onto (raw1 raw2 v : Z) :
  0 <= raw1 <= raw2 ->
  raw2 <= 1023 ->
  0 <= v <= 255 ->
  adcValue raw1 <= adcValue raw2 /\
  (adcValue raw2 = 255 <-> raw2 = 1023) /\
  exists raw, 0 <= raw <= 1023 /\ adcValue raw = v.
Proof.
  intros H1 H2 Hv.
  rewrite !adcValue_floor by lia.
  split; [| split].
  - apply Z.div_le_mono; lia.
  - split.
    + intros E. destruct (Z.eq_dec raw2 1023) as [|N]; [assumption | exfalso].
      assert (raw2 * 255 / 1023 < 255) by (apply Z.div_lt_upper_bound; lia).
      lia.
    + intros ->. reflexivity.
  - exists ((v * 1023 + 254) / 255).
    pose proof (below_forallb 256
                  (fun v => (0 <=? (v * 1023 + 254) / 255)
                            && ((v * 1023 + 254) / 255 <=? 1023)
                            && (adcValue ((v * 1023 + 254) / 255) =? v))
                  ltac:(vm_compute; reflexivity) v ltac:(lia)) as C.
    cbv beta in C.
    apply andb_prop in C; destruct C as [C C3].
    apply andb_prop in C; destruct C as [C1 C2].
    apply Z.leb_le in C1, C2. apply Z.eqb_eq in C3. auto.
Qed.

Lemma adcValue_monotone_onto_witness :
  0 <= 511 <= 512 /\ 512 <= 1023 /\ 0 <= 200 <= 255 /\
  adcValue 511 <= adcValue 512 /\
  (adcValue 512 = 255 <-> 512 = 1023) /\
  exists raw, 0 <= raw <= 1023 /\ adcValue raw = 200.
Proof.
  split; [lia | split; [lia | split; [lia |]]].
  apply (adcValue_monotone_onto 511 512 200); lia.
Defined.

(** ** Gate results as functions of the operands *)

(** X5. For 4-bit operands and every gate index, also one without a gate,
    the result has its upper four bits clear and does not change when the
    operands are exchanged; the XNOR result is the 4-bit complement of the
    XOR result, and the AND and OR results add up to the sum of the
    operands. *)
Theorem gateResult_algebra (logicType a b : Z) :
  0 <= logicType < 256 ->
  0 <= a < 16 ->
  0 <= b < 16 ->
  0 <= gateResult logicType a b < 16 /\
  gateResult logicType a b = gateResult logicType b a /\
  gateResult GATE_XNOR a b = 15 - gateResult GATE_XOR a b /\
  gateResult GATE_AND a b + gateResult GATE_OR a b = a + b.
Proof.
  intros Hg Ha Hb.
  assert (I : logicType = 0 \/ logicType = 1 \/ logicType = 2 \/ logicType = 3
              \/ 4 <= logicType) by lia.
  assert (C : forall g,
             forallb (fun a => forallb (fun b =>
               (0 <=? gateResult g a b) && (gateResult g a b <? 16)
               && (gateResult g a b =? gateResult g b a)
               && (gateResult GATE_XNOR a b =? 15 - gateResult GATE_XOR a b)
               && (gateResult GATE_AND a b + gateResult GATE_OR a b =? a + b))
               (below 16)) (below 16) = true ->
             0 <= gateResult g a b < 16 /\
             gateResult g a b = gateResult g b a /\
             gateResult GATE_XNOR a b = 15 - gateResult GATE_XOR a b /\
             gateResult GATE_AND a b + gateResult GATE_OR a b = a + b).
  { intros g F.
    pose proof (below2_forallb 16 16 _ F a b Ha Hb) as R. cbv beta in R.
    repeat (apply andb_prop in R; destruct R as [R ?]).
    repeat match goal with
      | H : (_ =? _) = true |- _ => apply Z.eqb_eq in H
      | H : (_ <=? _) = true |- _ => apply Z.leb_le in H
      | H : (_ <? _) = true |- _ => apply Z.ltb_lt in H
      end.
    repeat split; assumption. }
  destruct I as [-> | [-> | [-> | [-> | Hbig]]]];
    try (apply C; vm_compute; reflexivity).
  assert (Z0 : forall x y, gateResult logicType x y = 0).
  { intros x y. unfold gateResult, GATE_AND, GATE_OR, GATE_XOR, GATE_XNOR.
    destruct (Z.eqb_spec logicType 0); [lia |].
    destruct (Z.eqb_spec logicType 1); [lia |].
    destruct (Z.eqb_spec logicType 2); [lia |].
    destruct (Z.eqb_spec logicType 3); [lia | reflexivity]. }
  rewrite !Z0.
  destruct (C 0 ltac:(vm_compute; reflexivity)) as (_ & _ & X & S).
  repeat split; try lia; assumption.
Qed.

Lemma gateResult_algebra_witness :
  0 <= 2 < 256 /\ 0 <= 10 < 16 /\ 0 <= 12 < 16 /\
  0 <= gateResult 2 10 12 < 16 /\
  gateResult 2 10 12 = gateResult 2 12 10 /\
  gateResult GATE_XNOR 10 12 = 15 - gateResult GATE_XOR 10 12 /\
  gateResult GATE_AND 10 12 + gateResult GATE_OR 10 12 = 10 + 12.
Proof.
  split; [lia | split; [lia | split; [lia |]]].
  apply (gateResult_algebra 2 10 12); lia.
Defined.

(** ** What the display shows after a question and after a mode change *)

Lemma chars_eqb a b :
  String.eqb (string_of_list_ascii a) (string_of_list_ascii b) = true -> a = b.
Proof.
  intros H. apply String.eqb_eq in H.
  apply (f_equal list_ascii_of_string) in H.
  now rewrite !list_ascii_of_string_of_list_ascii in H.
Qed.

Lemma question_rows T d :
  0 <= T < 256 ->
  Lcd.row0 (Lcd.render (quizRow0 T) (quizRow1 T) (Lcd.clear d))
  = pad16 ("DEC:" ++ print_long T DEC) /\
  Lcd.row1 (Lcd.render (quizRow0 T) (quizRow1 T) (Lcd.clear d))
  = pad16 ("HEX:0x" ++ hex2 T) /\
  Lcd.row0 (Lcd.print "Incorrect      "
              (Lcd.setCursor 0 1
                 (Lcd.render (quizRow0 T) (quizRow1 T) (Lcd.clear d))))
  = pad16 ("DEC:" ++ print_long T DEC) /\
  Lcd.row1 (Lcd.print "Incorrect      "
              (Lcd.setCursor 0 1
                 (Lcd.render (quizRow0 T) (quizRow1 T) (Lcd.clear d))))
  = pad16 "Incorrect".
Proof.
  intros H. change (Lcd.clear d) with (Lcd.mk Lcd.blank Lcd.blank 0 0).
  set (shownQ := fun T => Lcd.render (quizRow0 T) (quizRow1 T)
                            (Lcd.mk Lcd.blank Lcd.blank 0 0)).
  set (wrong := fun T => Lcd.print "Incorrect      "
                           (Lcd.setCursor 0 1 (shownQ T))).
  pose proof (below_forallb 256
    (fun T =>
       String.eqb (string_of_list_ascii (Lcd.row0 (shownQ T)))
         (string_of_list_ascii (pad16 ("DEC:" ++ print_long T DEC)))
       && String.eqb (string_of_list_ascii (Lcd.row1 (shownQ T)))
            (string_of_list_ascii (pad16 ("HEX:0x" ++ hex2 T)))
       && String.eqb (string_of_list_ascii (Lcd.row0 (wrong T)))
            (string_of_list_ascii (pad16 ("DEC:" ++ print_long T DEC)))
       && String.eqb (string_of_list_ascii (Lcd.row1 (wrong T)))
            (string_of_list_ascii (pad16 "Incorrect")))
    ltac:(vm_compute; reflexivity) T H) as C.
  cbv beta in C.
  repeat (apply andb_prop in C; destruct C as [C ?]).
  repeat split; apply chars_eqb; assumption.
Qed.

(** X6. A pass of Quiz mode without a question on display stores the
    generator's output reduced to a byte as the target, blanks the display
    and writes "DEC:" with the target's decimal numeral on row 0 and
    "HEX:0x" with its two hexadecimal digits on row 1.  The switches are not
    read in this pass: the LEDs keep what they showed, and no pause is
    made. *)
Theorem quizMode_shows_question (e : Env) (s : State) :
  questionDisplayed s = false ->
  exists s' dec,
    quizMode e s = Done tt s' /\
    quizTarget s' = to_byte (random 0 256 (libc_random e)) /\
    dec_value dec = Some (quizTarget s') /\
    no_leading_zero dec = true /\
    Lcd.row0 (lcd s') = pad16 ("DEC:" ++ dec) /\
    Lcd.row1 (lcd s') = pad16 ("HEX:0x" ++ hex2 (quizTarget s')) /\
    questionDisplayed s' = true /\
    leds s' = leds s /\
    pauses s' = pauses s.
Proof.
  intros Q.
  set (T := to_byte (random 0 256 (libc_random e))).
  assert (HT : 0 <= T < 256) by (apply Z.mod_pos_bound; lia).
  destruct (byte_numerals T HT) as (_ & Hdec & Hlead & _).
  destruct (question_rows T (lcd (set_quizTarget T (count_draw s))) HT)
    as (R0 & R1 & _).
  eexists. exists (print_long T DEC). split.
  { apply quizMode_ask. exact Q. }
  fold T.
  cbn [set_questionDisplayed with_lcd set_quizTarget count_draw quizTarget lcd
       leds pauses questionDisplayed] in *.
  repeat split; assumption.
Qed.

Lemma quizMode_shows_question_witness :
  questionDisplayed booted = false /\
  exists s' dec,
    quizMode (readings 0 HIGH 0 0 0 135) booted = Done tt s' /\
    quizTarget s' = to_byte (random 0 256 (libc_random (readings 0 HIGH 0 0 0 135))) /\
    dec_value dec = Some (quizTarget s') /\
    no_leading_zero dec = true /\
    Lcd.row0 (lcd s') = pad16 ("DEC:" ++ dec) /\
    Lcd.row1 (lcd s') = pad16 ("HEX:0x" ++ hex2 (quizTarget s')) /\
    questionDisplayed s' = true /\
    leds s' = leds booted /\
    pauses s' = pauses booted.
Proof.
  split; [reflexivity |].
  apply (quizMode_shows_question (readings 0 HIGH 0 0 0 135) booted).
  reflexivity.
Defined.

(** X7. The hexadecimal line of a question lasts one pass.  When the pass
    after the one that showed the question finds the switches different
    from the target, row 1 reads "Incorrect" and nothing else, row 0 still
    reads "DEC:" with the target, and the LEDs show the switches. *)
Theorem quizMode_mismatch_erases_hex (e1 e2 : Env) (s : State) :
  questionDisplayed s = false ->
  switchVector e2 <> to_byte (random 0 256 (libc_random e1)) ->
  exists s1 s2 dec,
    quizMode e1 s = Done tt s1 /\
    quizMode e2 s1 = Done tt s2 /\
    quizTarget s2 = to_byte (random 0 256 (libc_random e1)) /\
    dec_value dec = Some (quizTarget s2) /\
    Lcd.row0 (lcd s2) = pad16 ("DEC:" ++ dec) /\
    Lcd.row1 (lcd s2) = pad16 "Incorrect" /\
    ShiftRegister.outputs (leds s2) = switchVector e2.
Proof.
  intros Q N.
  set (T := to_byte (random 0 256 (libc_random e1))) in *.
  assert (HT : 0 <= T < 256) by (apply Z.mod_pos_bound; lia).
  destruct (byte_numerals T HT) as (_ & Hdec & _).
  destruct (question_rows T (lcd (set_quizTarget T (count_draw s))) HT)
    as (_ & _ & R0 & R1).
  eexists. eexists. exists (print_long T DEC).
  split; [apply quizMode_ask; exact Q |].
  split.
  { apply quizMode_incorrect; [reflexivity |].
    rewrite readSwitches_switchVector. exact N. }
  fold T.
  cbn [set_questionDisplayed with_lcd with_leds set_quizTarget count_draw
       quizTarget lcd leds] in *.
  rewrite push_outputs, readSwitches_switchVector.
  cbn [ShiftRegister.outputs].
  pose proof (switchVector_byte e2) as B.
  repeat split; try assumption.
  apply Z.mod_small. exact B.
Qed.

Lemma quizMode_mismatch_erases_hex_witness :
  questionDisplayed booted = false /\
  switchVector (readings 5 HIGH 0 0 0 0)
  <> to_byte (random 0 256 (libc_random (readings 0 HIGH 0 0 0 135))) /\
  exists s1 s2 dec,
    quizMode (readings 0 HIGH 0 0 0 135) booted = Done tt s1 /\
    quizMode (readings 5 HIGH 0 0 0 0) s1 = Done tt s2 /\
    quizTarget s2 = to_byte (random 0 256 (libc_random (readings 0 HIGH 0 0 0 135))) /\
    dec_value dec = Some (quizTarget s2) /\
    Lcd.row0 (lcd s2) = pad16 ("DEC:" ++ dec) /\
    Lcd.row1 (lcd s2) = pad16 "Incorrect" /\
    ShiftRegister.outputs (leds s2) = switchVector (readings 5 HIGH 0 0 0 0).
Proof.
  split; [reflexivity | split; [vm_compute; discriminate |]].
  apply (quizMode_mismatch_erases_hex (readings 0 HIGH 0 0 0 135)
           (readings 5 HIGH 0 0 0 0) booted).
  - reflexivity.
  - vm_compute; discriminate.
Defined.

Lemma manual_rows_after_banner v d :
  0 <= v < 256 ->
  Lcd.row0 (Lcd.render (manualRow0 v) (manualRow1 v)
              (Lcd.print (modeBanner 0) (Lcd.setCursor 0 0 (Lcd.clear d))))
  = (if v <? 10
     then list_ascii_of_string ("DEC:" ++ print_long v DEC ++ "      l    ")
     else pad16 ("DEC:" ++ print_long v DEC)) /\
  Lcd.row1 (Lcd.render (manualRow0 v) (manualRow1 v)
              (Lcd.print (modeBanner 0) (Lcd.setCursor 0 0 (Lcd.clear d))))
  = pad16 ("HEX:0x" ++ hex2 v).
Proof.
  intros H. change (Lcd.clear d) with (Lcd.mk Lcd.blank Lcd.blank 0 0).
  set (after := fun v => Lcd.render (manualRow0 v) (manualRow1 v)
                  (Lcd.print (modeBanner 0)
                     (Lcd.setCursor 0 0 (Lcd.mk Lcd.blank Lcd.blank 0 0)))).
  pose proof (below_forallb 256
    (fun v =>
       String.eqb (string_of_list_ascii (Lcd.row0 (after v)))
         (string_of_list_ascii
            (if v <? 10
             then list_ascii_of_string ("DEC:" ++ print_long v DEC ++ "      l    ")
             else pad16 ("DEC:" ++ print_long v DEC)))
       && String.eqb (string_of_list_ascii (Lcd.row1 (after v)))
            (string_of_list_ascii (pad16 ("HEX:0x" ++ hex2 v))))
    ltac:(vm_compute; reflexivity) v H) as C.
  cbv beta in C. apply andb_prop in C. destruct C as [C0 C1].
  split; apply chars_eqb; assumption.
Qed.

(** X8. The pass of [loop()] that confirms a press in mode 3 enters Manual
    mode and runs it at once over the mode's name.  Row 1 reads "HEX:0x"
    with the two digits and nothing else; row 0 reads "DEC:" with the
    numeral and nothing else when the switch vector has two or three
    digits, but for a vector below 10 the last letter of "Mode: Manual"
    stays in the twelfth cell. *)
Theorem loop_enters_manual (e : Env) (s : State) :
  pressConfirmed e s = true ->
  currentMode s = 3 ->
  exists s' dec,
    loop e s = Done tt s' /\
    currentMode s' = 0 /\
    dec_value dec = Some (switchVector e) /\
    Lcd.row0 (lcd s')
    = (if switchVector e <? 10
       then list_ascii_of_string ("DEC:" ++ dec ++ "      l    ")
       else pad16 ("DEC:" ++ dec)) /\
    Lcd.row1 (lcd s') = pad16 ("HEX:0x" ++ hex2 (switchVector e)) /\
    ShiftRegister.outputs (leds s') = switchVector e.
Proof.
  intros P M.
  destruct (handleModeSwitch_confirmed e s P)
    as (s1 & Hrun & Hm & Hl & _).
  rewrite M in Hm, Hl.
  change (to_byte (Z.rem (3 + 1) totalModes)) with 0 in Hm, Hl.
  pose proof (switchVector_byte e) as B.
  destruct (byte_numerals _ B) as (Hbyte & Hdec & _).
  destruct (manual_rows_after_banner _ (lcd s) B) as [R0 R1].
  eexists. exists (print_long (switchVector e) DEC). split.
  { rewrite loop_run, Hrun. cbn [state_of]. rewrite Hm.
    change (dispatch e 0 s1) with (manualMode e s1).
    rewrite manualMode_run, readSwitches_switchVector. reflexivity. }
  cbn [log_pause shown with_lcd with_leds lcd leds currentMode].
  rewrite Hl, push_outputs. cbn [ShiftRegister.outputs].
  repeat split; assumption.
Qed.

Lemma loop_enters_manual_witness :
  pressConfirmed (readings 5 LOW 0 0 200 0)
    (set_currentMode 3 (afterSamples [readings 0 LOW 0 0 100 0])) = true /\
  currentMode (set_currentMode 3 (afterSamples [readings 0 LOW 0 0 100 0])) = 3 /\
  exists s' dec,
    loop (readings 5 LOW 0 0 200 0)
      (set_currentMode 3 (afterSamples [readings 0 LOW 0 0 100 0])) = Done tt s' /\
    currentMode s' = 0 /\
    dec_value dec = Some (switchVector (readings 5 LOW 0 0 200 0)) /\
    Lcd.row0 (lcd s')
    = (if switchVector (readings 5 LOW 0 0 200 0) <? 10
       then list_ascii_of_string ("DEC:" ++ dec ++ "      l    ")
       else pad16 ("DEC:" ++ dec)) /\
    Lcd.row1 (lcd s') = pad16 ("HEX:0x" ++ hex2 (switchVector (readings 5 LOW 0 0 200 0))) /\
    ShiftRegister.outputs (leds s') = switchVector (readings 5 LOW 0 0 200 0).
Proof.
  split; [reflexivity | split; [reflexivity |]].
  apply (loop_enters_manual (readings 5 LOW 0 0 200 0)
           (set_currentMode 3 (afterSamples [readings 0 LOW 0 0 100 0])));
    reflexivity.
Defined.

(** X9. The pass of [loop()] that confirms a press in mode 0 enters Quiz
    mode and asks a new question in the same pass, whatever the question
    flag was before: one draw, the target on both rows of an otherwise
    blank display, and the flag set.  The switches are not read in that
    pass, so the LEDs keep what Manual mode last showed; the pass blocks for
    its 100 ms only. *)
Theorem loop_enters_quiz (e : Env) (s : State) :
  pressConfirmed e s = true ->
  currentMode s = 0 ->
  exists s' dec,
    loop e s = Done tt s' /\
    currentMode s' = 1 /\
    draws s' = S (draws s) /\
    quizTarget s' = to_byte (random 0 256 (libc_random e)) /\
    questionDisplayed s' = true /\
    dec_value dec = Some (quizTarget s') /\
    Lcd.row0 (lcd s') = pad16 ("DEC:" ++ dec) /\
    Lcd.row1 (lcd s') = pad16 ("HEX:0x" ++ hex2 (quizTarget s')) /\
    leds s' = leds s /\
    pauses s' = (pauses s ++ [100])%list.
Proof.
  intros P M.
  destruct (handleModeSwitch_confirmed e s P)
    as (s1 & Hrun & Hm & _ & Hq & _ & _ & Hleds & Hdraws & Hpauses).
  rewrite M in Hm.
  change (to_byte (Z.rem (0 + 1) totalModes)) with 1 in Hm.
  set (T := to_byte (random 0 256 (libc_random e))).
  assert (HT : 0 <= T < 256) by (apply Z.mod_pos_bound; lia).
  destruct (byte_numerals T HT) as (_ & Hdec & _).
  destruct (question_rows T (lcd (set_quizTarget T (count_draw s1))) HT)
    as (R0 & R1 & _).
  eexists. exists (print_long T DEC). split.
  { rewrite loop_run, Hrun. cbn [state_of]. rewrite Hm.
    change (dispatch e 1 s1) with (quizMode e s1).
    rewrite (quizMode_ask e s1 Hq). reflexivity. }
  fold T.
  cbn [log_pause set_questionDisplayed with_lcd set_quizTarget count_draw
       quizTarget lcd leds pauses questionDisplayed draws currentMode] in *.
  rewrite Hm, Hdraws, Hleds, Hpauses.
  repeat split; assumption.
Qed.

Lemma loop_enters_quiz_witness :
  pressConfirmed (readings 5 LOW 0 0 200 77)
    (afterSamples [readings 0 LOW 0 0 100 0]) = true /\
  currentMode (afterSamples [readings 0 LOW 0 0 100 0]) = 0 /\
  exists s' dec,
    loop (readings 5 LOW 0 0 200 77) (afterSamples [readings 0 LOW 0 0 100 0])
    = Done tt s' /\
    currentMode s' = 1 /\
    draws s' = S (draws (afterSamples [readings 0 LOW 0 0 100 0])) /\
    quizTarget s' = to_byte (random 0 256 (libc_random (readings 5 LOW 0 0 200 77))) /\
    questionDisplayed s' = true /\
    dec_value dec = Some (quizTarget s') /\
    Lcd.row0 (lcd s') = pad16 ("DEC:" ++ dec) /\
    Lcd.row1 (lcd s') = pad16 ("HEX:0x" ++ hex2 (quizTarget s')) /\
    leds s' = leds (afterSamples [readings 0 LOW 0 0 100 0]) /\
    pauses s' = (pauses (afterSamples [readings 0 LOW 0 0 100 0]) ++ [100])%list.
Proof.
  split; [reflexivity | split; [reflexivity |]].
  apply (loop_enters_quiz (readings 5 LOW 0 0 200 77)
           (afterSamples [readings 0 LOW 0 0 100 0]));
    reflexivity.
Defined.

Lemma adc_rows_after_banner raw d :
  0 <= raw <= 1023 ->
  Lcd.row0 (Lcd.render (adcRow0 (adcValue raw)) (adcRow1 (adcValue raw))
              (Lcd.print (modeBanner 3) (Lcd.setCursor 0 0 (Lcd.clear d))))
  = pad16 ("DEC:" ++ print_long (adcValue raw) DEC) /\
  Lcd.row1 (Lcd.render (adcRow0 (adcValue raw)) (adcRow1 (adcValue raw))
              (Lcd.print (modeBanner 3) (Lcd.setCursor 0 0 (Lcd.clear d))))
  = pad16 ("HEX:0x" ++ hex2 (adcValue raw)).
Proof.
  intros H. change (Lcd.clear d) with (Lcd.mk Lcd.blank Lcd.blank 0 0).
  set (after := fun raw =>
         Lcd.render (adcRow0 (adcValue raw)) (adcRow1 (adcValue raw))
           (Lcd.print (modeBanner 3)
              (Lcd.setCursor 0 0 (Lcd.mk Lcd.blank Lcd.blank 0 0)))).
  pose proof (below_forallb 1024
    (fun raw =>
       String.eqb (string_of_list_ascii (Lcd.row0 (after raw)))
         (string_of_list_ascii (pad16 ("DEC:" ++ print_long (adcValue raw) DEC)))
       && String.eqb (string_of_list_ascii (Lcd.row1 (after raw)))
            (string_of_list_ascii (pad16 ("HEX:0x" ++ hex2 (adcValue raw)))))
    ltac:(vm_compute; reflexivity) raw ltac:(lia)) as C.
  cbv beta in C. apply andb_prop in C. destruct C as [C0 C1].
  split; apply chars_eqb; assumption.
Qed.

(** X10. The pass of [loop()] that confirms a press in mode 2 enters ADC
    mode and leaves nothing of the mode's name: with the sensor reading in
    0..1023, row 0 reads "DEC:" with the numeral of the rescaled value and
    row 1 "HEX:0x" with its two digits, all other cells blank, and the LEDs
    show the rescaled value. *)
Theorem loop_enters_adc (e : Env) (s : State) :
  pressConfirmed e s = true ->
  currentMode s = 2 ->
  0 <= analogRead e analogSensorPin <= 1023 ->
  exists s' dec,
    loop e s = Done tt s' /\
    currentMode s' = 3 /\
    dec_value dec = Some (analogRead e analogSensorPin * 255 / 1023) /\
    Lcd.row0 (lcd s') = pad16 ("DEC:" ++ dec) /\
    Lcd.row1 (lcd s')
    = pad16 ("HEX:0x" ++ hex2 (analogRead e analogSensorPin * 255 / 1023)) /\
    ShiftRegister.outputs (leds s') = analogRead e analogSensorPin * 255 / 1023.
Proof.
  intros P M R.
  destruct (handleModeSwitch_confirmed e s P)
    as (s1 & Hrun & Hm & Hl & _).
  rewrite M in Hm, Hl.
  change (to_byte (Z.rem (2 + 1) totalModes)) with 3 in Hm, Hl.
  pose proof (adcValue_byte _ R) as B.
  destruct (byte_numerals _ B) as (Hbyte & Hdec & _).
  destruct (adc_rows_after_banner _ (lcd s) R) as [R0 R1].
  rewrite adcValue_floor in R0, R1 by exact R.
  eexists. exists (print_long (analogRead e analogSensorPin * 255 / 1023) DEC).
  split.
  { rewrite loop_run, Hrun. cbn [state_of]. rewrite Hm.
    change (dispatch e 3 s1) with (adcMode e s1).
    rewrite adcMode_run. cbv zeta. rewrite adcValue_floor by exact R.
    reflexivity. }
  cbn [log_pause shown with_lcd with_leds lcd leds currentMode].
  rewrite Hl, push_outputs. cbn [ShiftRegister.outputs].
  repeat split; assumption.
Qed.

Lemma loop_enters_adc_witness :
  pressConfirmed (readings 5 LOW 0 512 200 0)
    (set_currentMode 2 (afterSamples [readings 0 LOW 0 0 100 0])) = true /\
  currentMode (set_currentMode 2 (afterSamples [readings 0 LOW 0 0 100 0])) = 2 /\
  0 <= analogRead (readings 5 LOW 0 512 200 0) analogSensorPin <= 1023 /\
  exists s' dec,
    loop (readings 5 LOW 0 512 200 0)
      (set_currentMode 2 (afterSamples [readings 0 LOW 0 0 100 0])) = Done tt s' /\
    currentMode s' = 3 /\
    dec_value dec
    = Some (analogRead (readings 5 LOW 0 512 200 0) analogSensorPin * 255 / 1023) /\
    Lcd.row0 (lcd s') = pad16 ("DEC:" ++ dec) /\
    Lcd.row1 (lcd s')
    = pad16 ("HEX:0x"
             ++ hex2 (analogRead (readings 5 LOW 0 512 200 0) analogSensorPin
                      * 255 / 1023)) /\
    ShiftRegister.outputs (leds s')
    = analogRead (readings 5 LOW 0 512 200 0) analogSensorPin * 255 / 1023.
Proof.
  split; [reflexivity | split; [reflexivity |]].
  split; [vm_compute; split; discriminate |].
  apply (loop_enters_adc (readings 5 LOW 0 512 200 0)
           (set_currentMode 2 (afterSamples [readings 0 LOW 0 0 100 0])));
    try reflexivity.
  vm_compute; split; discriminate.
Defined.

(** ** The two rows of Logic-Gate mode *)

Lemma logic_texts g sv :
  0 <= g < 4 ->
  0 <= sv < 256 ->
  let a := sv mod 16 in
  let b := sv / 16 in
  let r := gateResult g a b in
  let name := nth (Z.to_nat g) logicNames EmptyString in
  to_byte r = r /\
  logicRow0 b name a = (bin4 b ++ " " ++ name ++ " " ++ bin4 a ++ "  ")%string /\
  logicRow1 r
  = ("DEC:" ++ print_long r DEC ++ " HEX:0x"
     ++ String (hexDigit r) EmptyString ++ "  ")%string /\
  String.length (logicRow0 b name a) = (12 + String.length name)%nat /\
  (String.length (logicRow0 b name a) <= 16)%nat /\
  String.length (logicRow1 r) = (14 + String.length (print_long r DEC))%nat /\
  (String.length (logicRow1 r) <= 16)%nat /\
  dec_value (print_long r DEC) = Some r /\
  no_leading_zero (print_long r DEC) = true.
Proof.
  intros Hg Hsv.
  pose proof (below2_forallb 4 256
    (fun g sv =>
       let a := sv mod 16 in
       let b := sv / 16 in
       let r := gateResult g a b in
       let name := nth (Z.to_nat g) logicNames EmptyString in
       (to_byte r =? r)
       && String.eqb (logicRow0 b name a)
            (bin4 b ++ " " ++ name ++ " " ++ bin4 a ++ "  ")
       && String.eqb (logicRow1 r)
            ("DEC:" ++ print_long r DEC ++ " HEX:0x"
             ++ String (hexDigit r) EmptyString ++ "  ")
       && (String.length (logicRow0 b name a) =? 12 + String.length name)%nat
       && (String.length (logicRow0 b name a) <=? 16)%nat
       && (String.length (logicRow1 r)
           =? 14 + String.length (print_long r DEC))%nat
       && (String.length (logicRow1 r) <=? 16)%nat
       && match dec_value (print_long r DEC) with
          | Some x => x =? r
          | None => false
          end
       && no_leading_zero (print_long r DEC))
    ltac:(vm_compute; reflexivity) g sv ltac:(lia) ltac:(lia)) as C.
  cbv beta zeta in C. cbv zeta.
  repeat (apply andb_prop in C; destruct C as [C ?]).
  destruct (dec_value (print_long (gateResult g (sv mod 16) (sv / 16)) DEC))
    as [x|]; [| discriminate].
  repeat match goal with
    | H : (_ =? _) = true |- _ => apply Z.eqb_eq in H
    | H : String.eqb _ _ = true |- _ => apply String.eqb_eq in H
    | H : (_ =? _)%nat = true |- _ => apply Nat.eqb_eq in H
    | H : (_ <=? _)%nat = true |- _ => apply Nat.leb_le in H
    end.
  repeat split; try assumption. f_equal. assumption.
Qed.

(** X11. With a gate index within 0..3, a pass of Logic-Gate mode on a
    display of sixteen columns writes on row 0 operand B (switches 4..7) as
    four binary digits, most significant first, a blank, the gate's name, a
    blank, operand A (switches 0..3) in the same form and two blanks; on
    row 1 "DEC:" with the result's decimal numeral, " HEX:0x" with its one
    hexadecimal digit and two blanks.  The cells to the right of each text
    are kept. *)
Theorem logicGateMode_rows (e : Env) (s : State) :
  0 <= gateIndex (analogRead e potPin) <= 3 ->
  Lcd.wf (lcd s) ->
  exists s' name dec,
    nth_error logicNames (Z.to_nat (gateIndex (analogRead e potPin))) = Some name /\
    logicGateMode e s = Done tt s' /\
    dec_value dec = Some (ShiftRegister.outputs (leds s')) /\
    no_leading_zero dec = true /\
    Lcd.row0 (lcd s')
    = (list_ascii_of_string
         (bin4 (switchVector e / 16) ++ " " ++ name ++ " "
          ++ bin4 (switchVector e mod 16) ++ "  ")
       ++ skipn (12 + String.length name) (Lcd.row0 (lcd s)))%list /\
    Lcd.row1 (lcd s')
    = (list_ascii_of_string
         ("DEC:" ++ dec ++ " HEX:0x"
          ++ String (hexDigit (ShiftRegister.outputs (leds s'))) EmptyString
          ++ "  ")
       ++ skipn (14 + String.length dec) (Lcd.row1 (lcd s)))%list.
Proof.
  intros G [W0 W1].
  destruct (gateIndex_names _ G) as (gate & name & _ & Hn).
  pose proof (switchVector_byte e) as B.
  destruct (logic_texts (gateIndex (analogRead e potPin)) (switchVector e)
              ltac:(lia) B)
    as (Hbyte & T0 & T1 & L0 & L0' & L1 & L1' & Hdec & Hlead).
  rewrite (nth_error_nth _ _ _ Hn) in *.
  set (r := gateResult (gateIndex (analogRead e potPin))
              (switchVector e mod 16) (switchVector e / 16)) in *.
  eexists. exists name, (print_long r DEC).
  split; [exact Hn |].
  split; [apply (logicGateMode_run e s name Hn) |].
  rewrite readOperands_switchVector. cbn [fst snd]. fold r.
  unfold shown. cbn [lcd leds with_lcd with_leds].
  rewrite push_outputs, render_rows.
  cbn [ShiftRegister.outputs Lcd.row0 Lcd.row1].
  rewrite !overlay_text by lia.
  rewrite Hbyte, L0, L1, T0, T1.
  repeat split; assumption.
Qed.

Lemma logicGateMode_rows_witness :
  0 <= gateIndex (analogRead (readings 202 HIGH 300 0 0 0) potPin) <= 3 /\
  Lcd.wf (lcd booted) /\
  exists s' name dec,
    nth_error logicNames
      (Z.to_nat (gateIndex (analogRead (readings 202 HIGH 300 0 0 0) potPin)))
    = Some name /\
    logicGateMode (readings 202 HIGH 300 0 0 0) booted = Done tt s' /\
    dec_value dec = Some (ShiftRegister.outputs (leds s')) /\
    no_leading_zero dec = true /\
    Lcd.row0 (lcd s')
    = (list_ascii_of_string
         (bin4 (switchVector (readings 202 HIGH 300 0 0 0) / 16) ++ " " ++ name ++ " "
          ++ bin4 (switchVector (readings 202 HIGH 300 0 0 0) mod 16) ++ "  ")
       ++ skipn (12 + String.length name) (Lcd.row0 (lcd booted)))%list /\
    Lcd.row1 (lcd s')
    = (list_ascii_of_string
         ("DEC:" ++ dec ++ " HEX:0x"
          ++ String (hexDigit (ShiftRegister.outputs (leds s'))) EmptyString
          ++ "  ")
       ++ skipn (14 + String.length dec) (Lcd.row1 (lcd booted)))%list.
Proof.
  split; [vm_compute; split; discriminate | split; [split; reflexivity |]].
  apply (logicGateMode_rows (readings 202 HIGH 300 0 0 0) booted).
  - vm_compute; split; discriminate.
  - split; reflexivity.
Defined.

(** ** The detector and the millisecond counter *)

Lemma lastLevel_shift k hist :
  lastLevel (List.map (shiftClock k) hist) = lastLevel hist.
Proof. destruct hist; reflexivity. Qed.

Lemma forallb_level_shift k hist :
  forallb level (List.map (shiftClock k) hist) = forallb level hist.
Proof.
  induction hist as [|e older IH]; [reflexivity |].
  cbn [List.map forallb]. now rewrite IH.
Qed.

Lemma never_pressed_unlatched hist :
  forallb level hist = true -> latched hist = false /\ lastLevel hist = HIGH.
Proof.
  induction hist as [|e older IH]; intros F; [split; reflexivity |].
  cbn [forallb] in F. apply andb_prop in F. destruct F as [Fe Fo].
  destruct (IH Fo) as [IHl _].
  cbn [latched lastLevel]. rewrite Fe, IHl.
  split; [destruct (_ >? debounceDelay); reflexivity | reflexivity].
Qed.

Lemma stableSince_shift k hist :
  forallb level hist = false ->
  stableSince (List.map (shiftClock k) hist) = to_ulong (stableSince hist + k).
Proof.
  induction hist as [|e older IH]; intros F; [discriminate |].
  cbn [List.map stableSince]. rewrite lastLevel_shift.
  change (level (shiftClock k e)) with (level e).
  destruct (Bool.eqb (level e) (lastLevel older)) eqn:E.
  - apply IH. destruct (forallb level older) eqn:Fo; [| reflexivity].
    destruct (never_pressed_unlatched older Fo) as [_ L].
    rewrite L in E. apply Bool.eqb_prop in E.
    cbn [forallb] in F. rewrite E, Fo in F. discriminate.
  - cbn [millis1 shiftClock]. unfold to_ulong.
    now rewrite Zplus_mod_idemp_l.
Qed.

Lemma heldFor_shift k hist :
  forallb level hist = false ->
  heldFor (List.map (shiftClock k) hist) = heldFor hist.
Proof.
  intros F. pose proof (stableSince_shift k hist F) as S.
  destruct hist as [|e older]; [reflexivity |].
  cbn [List.map] in S. cbn [List.map heldFor]. rewrite S.
  cbn [millis2 shiftClock]. unfold to_ulong.
  rewrite Zminus_mod_idemp_l, Zminus_mod_idemp_r, Zminus_mod_idemp_l.
  f_equal. lia.
Qed.

Lemma latched_shift k hist :
  latched (List.map (shiftClock k) hist) = latched hist.
Proof.
  induction hist as [|e older IH]; [reflexivity |].
  destruct (forallb level (e :: older)) eqn:F.
  - destruct (never_pressed_unlatched _ F) as [-> _].
    apply never_pressed_unlatched. now rewrite forallb_level_shift.
  - pose proof (heldFor_shift k _ F) as H.
    cbn [List.map] in H. cbn [List.map latched]. rewrite H, IH.
    reflexivity.
Qed.

Lemma pressedLongEnough_shift k hist :
  pressedLongEnough (List.map (shiftClock k) hist) = pressedLongEnough hist.
Proof.
  unfold pressedLongEnough. rewrite lastLevel_shift.
  destruct (forallb level hist) eqn:F.
  - destruct (never_pressed_unlatched _ F) as [_ ->]. reflexivity.
  - now rewrite heldFor_shift.
Qed.

(** X12. The detector measures time by differences of the 32-bit
    millisecond counter only: with the counter further on by any amount at
    every sample, so also across the counter's wrap-around, the same
    samples confirm a press. *)
Theorem confirmedPress_clock_shift (k : Z) (hist : list Env) :
  confirmedPress (List.map (shiftClock k) hist) = confirmedPress hist.
Proof.
  rewrite !confirmedPress_latch, pressedLongEnough_shift.
  replace (tl (List.map (shiftClock k) hist))
    with (List.map (shiftClock k) (tl hist)) by (destruct hist; reflexivity).
  now rewrite latched_shift.
Qed.

(** ** The switches as bits *)

(** X13. Bit [i] of the byte that Manual and Quiz mode read is 1 exactly
    when the pin of switch [i] reads LOW, and the byte is below 256; the
    operands of Logic-Gate mode are its two halves, A the lower four bits
    and B the upper four. *)
Theorem readSwitches_bits (e : Env) (i : nat) :
  (i < 8)%nat ->
  Z.testbit (readSwitches e) (Z.of_nat i)
  = negb (digitalRead e (nth i switchPins 0)) /\
  0 <= readSwitches e < 256 /\
  fst (readOperands e) = Z.land (readSwitches e) 15 /\
  snd (readOperands e) = Z.shiftr (readSwitches e) 4 /\
  fst (readOperands e) + 16 * snd (readOperands e) = readSwitches e.
Proof.
  intros Hi.
  split; [| split].
  - unfold readSwitches. cbn [seq fold_left nth switchPins].
    do 8 (destruct i as [|i]; [each_switch e; reflexivity |]). lia.
  - rewrite readSwitches_switchVector. apply switchVector_byte.
  - unfold readOperands, readSwitches.
    cbn [seq fold_left nth switchPins Nat.add].
    each_switch e; repeat split.
Qed.

Lemma readSwitches_bits_witness :
  (3 < 8)%nat /\
  Z.testbit (readSwitches (readings 202 HIGH 0 0 0 0)) (Z.of_nat 3)
  = negb (digitalRead (readings 202 HIGH 0 0 0 0) (nth 3 switchPins 0)) /\
  0 <= readSwitches (readings 202 HIGH 0 0 0 0) < 256 /\
  fst (readOperands (readings 202 HIGH 0 0 0 0))
  = Z.land (readSwitches (readings 202 HIGH 0 0 0 0)) 15 /\
  snd (readOperands (readings 202 HIGH 0 0 0 0))
  = Z.shiftr (readSwitches (readings 202 HIGH 0 0 0 0)) 4 /\
  fst (readOperands (readings 202 HIGH 0 0 0 0))
  + 16 * snd (readOperands (readings 202 HIGH 0 0 0 0))
  = readSwitches (readings 202 HIGH 0 0 0 0).
Proof.
  split; [lia |].
  apply (readSwitches_bits (readings 202 HIGH 0 0 0 0) 3). lia.
Defined.

(** ** The mode change itself *)

(** X14. A call of handleModeSwitch that confirms a press steps the mode
    number by one modulo 4, leaves the display blank but for the new mode's
    name at the start of row 0 ("Mode: Manual", "Mode: Quiz", "Mode: Logic",
    "Mode: ADC" for 0, 1, 2, 3), resets the question flag and sets the
    latch, so that no reading confirms a press at the next call; the
    LEDs and the quiz target are not touched. *)
Theorem handleModeSwitch_on_press (e e' : Env) (s : State) :
  pressConfirmed e s = true ->
  0 <= currentMode s < 4 ->
  exists s',
    handleModeSwitch e s = Done tt s' /\
    currentMode s' = (currentMode s + 1) mod 4 /\
    Lcd.row0 (lcd s')
    = pad16 (nth (Z.to_nat (currentMode s'))
               ["Mode: Manual"; "Mode: Quiz"; "Mode: Logic"; "Mode: ADC"]%string
               EmptyString) /\
    Lcd.row1 (lcd s') = Lcd.blank /\
    questionDisplayed s' = false /\
    pressConfirmed e' s' = false /\
    leds s' = leds s /\
    quizTarget s' = quizTarget s.
Proof.
  intros P M.
  destruct (handleModeSwitch_confirmed e s P)
    as (s' & Hrun & Hm & Hl & Hq & Hb & Ht & Hleds & _).
  exists s'. split; [exact Hrun |].
  rewrite next_mode in Hm, Hl by exact M.
  split; [exact Hm |].
  rewrite Hm, Hl.
  change (Lcd.clear (lcd s)) with (Lcd.mk Lcd.blank Lcd.blank 0 0).
  assert (C : currentMode s = 0 \/ currentMode s = 1 \/ currentMode s = 2
              \/ currentMode s = 3) by lia.
  split; [destruct C as [-> | [-> | [-> | ->]]]; reflexivity |].
  split; [destruct C as [-> | [-> | [-> | ->]]]; reflexivity |].
  split; [exact Hq |].
  split; [| split; assumption].
  unfold pressConfirmed. rewrite Hb. cbn [negb]. apply andb_false_r.
Qed.

Lemma handleModeSwitch_on_press_witness :
  pressConfirmed (readings 0 LOW 0 0 200 0)
    (afterSamples [readings 0 LOW 0 0 100 0]) = true /\
  0 <= currentMode (afterSamples [readings 0 LOW 0 0 100 0]) < 4 /\
  exists s',
    handleModeSwitch (readings 0 LOW 0 0 200 0)
      (afterSamples [readings 0 LOW 0 0 100 0]) = Done tt s' /\
    currentMode s'
    = (currentMode (afterSamples [readings 0 LOW 0 0 100 0]) + 1) mod 4 /\
    Lcd.row0 (lcd s')
    = pad16 (nth (Z.to_nat (currentMode s'))
               ["Mode: Manual"; "Mode: Quiz"; "Mode: Logic"; "Mode: ADC"]%string
               EmptyString) /\
    Lcd.row1 (lcd s') = Lcd.blank /\
    questionDisplayed s' = false /\
    pressConfirmed (readings 0 LOW 0 0 300 0) s' = false /\
    leds s' = leds (afterSamples [readings 0 LOW 0 0 100 0]) /\
    quizTarget s' = quizTarget (afterSamples [readings 0 LOW 0 0 100 0]).
Proof.
  split; [reflexivity | split; [vm_compute; split; [discriminate | reflexivity] |]].
  apply (handleModeSwitch_on_press (readings 0 LOW 0 0 200 0)
           (readings 0 LOW 0 0 300 0)
           (afterSamples [readings 0 LOW 0 0 100 0])).
  - reflexivity.
  - vm_compute; split; [discriminate | reflexivity].
Defined.

Lemma logic_rows_after_banner g sv d :
  0 <= g < 4 ->
  0 <= sv < 256 ->
  let a := sv mod 16 in
  let b := sv / 16 in
  let r := gateResult g a b in
  let name := nth (Z.to_nat g) logicNames EmptyString in
  Lcd.row0 (Lcd.render (logicRow0 b name a) (logicRow1 r)
              (Lcd.print (modeBanner 2) (Lcd.setCursor 0 0 (Lcd.clear d))))
  = pad16 (bin4 b ++ " " ++ name ++ " " ++ bin4 a) /\
  Lcd.row1 (Lcd.render (logicRow0 b name a) (logicRow1 r)
              (Lcd.print (modeBanner 2) (Lcd.setCursor 0 0 (Lcd.clear d))))
  = pad16 ("DEC:" ++ print_long r DEC ++ " HEX:0x"
           ++ String (hexDigit r) EmptyString).
Proof.
  intros Hg Hsv. change (Lcd.clear d) with (Lcd.mk Lcd.blank Lcd.blank 0 0).
  pose proof (below2_forallb 4 256
    (fun g sv =>
       let a := sv mod 16 in
       let b := sv / 16 in
       let r := gateResult g a b in
       let name := nth (Z.to_nat g) logicNames EmptyString in
       let after :=
         Lcd.render (logicRow0 b name a) (logicRow1 r)
           (Lcd.print (modeBanner 2)
              (Lcd.setCursor 0 0 (Lcd.mk Lcd.blank Lcd.blank 0 0))) in
       String.eqb (string_of_list_ascii (Lcd.row0 after))
         (string_of_list_ascii (pad16 (bin4 b ++ " " ++ name ++ " " ++ bin4 a)))
       && String.eqb (string_of_list_ascii (Lcd.row1 after))
            (string_of_list_ascii
               (pad16 ("DEC:" ++ print_long r DEC ++ " HEX:0x"
                       ++ String (hexDigit r) EmptyString))))
    ltac:(vm_compute; reflexivity) g sv ltac:(lia) ltac:(lia)) as C.
  cbv beta zeta in C. cbv zeta.
  apply andb_prop in C. destruct C as [C0 C1].
  split; apply chars_eqb; assumption.
Qed.

(** X15. The pass of [loop()] that confirms a press in mode 1 enters
    Logic-Gate mode and, with a gate index within 0..3, leaves nothing of
    the mode's name: row 0 reads operand B, the gate's name and operand A,
    row 1 "DEC:" with the result and " HEX:0x" with its digit, all other
    cells blank. *)
Theorem loop_enters_logic (e : Env) (s : State) :
  pressConfirmed e s = true ->
  currentMode s = 1 ->
  0 <= gateIndex (analogRead e potPin) <= 3 ->
  exists s' name dec,
    nth_error logicNames (Z.to_nat (gateIndex (analogRead e potPin))) = Some name /\
    loop e s = Done tt s' /\
    currentMode s' = 2 /\
    dec_value dec = Some (ShiftRegister.outputs (leds s')) /\
    Lcd.row0 (lcd s')
    = pad16 (bin4 (switchVector e / 16) ++ " " ++ name ++ " "
             ++ bin4 (switchVector e mod 16)) /\
    Lcd.row1 (lcd s')
    = pad16 ("DEC:" ++ dec ++ " HEX:0x"
             ++ String (hexDigit (ShiftRegister.outputs (leds s'))) EmptyString).
Proof.
  intros P M G.
  destruct (handleModeSwitch_confirmed e s P)
    as (s1 & Hrun & Hm & Hl & _).
  rewrite M in Hm, Hl.
  change (to_byte (Z.rem (1 + 1) totalModes)) with 2 in Hm, Hl.
  destruct (gateIndex_names _ G) as (gate & name & _ & Hn).
  pose proof (switchVector_byte e) as B.
  destruct (logic_texts (gateIndex (analogRead e potPin)) (switchVector e)
              ltac:(lia) B)
    as (Hbyte & _ & _ & _ & _ & _ & _ & Hdec & _).
  destruct (logic_rows_after_banner (gateIndex (analogRead e potPin))
              (switchVector e) (lcd s) ltac:(lia) B) as [R0 R1].
  rewrite (nth_error_nth _ _ _ Hn) in *.
  set (r := gateResult (gateIndex (analogRead e potPin))
              (switchVector e mod 16) (switchVector e / 16)) in *.
  eexists. exists name, (print_long r DEC).
  split; [exact Hn |].
  split.
  { rewrite loop_run, Hrun. cbn [state_of]. rewrite Hm.
    change (dispatch e 2 s1) with (logicGateMode e s1).
    rewrite (logicGateMode_run e s1 name Hn). reflexivity. }
  rewrite readOperands_switchVector. cbn [fst snd]. fold r.
  cbn [log_pause shown with_lcd with_leds lcd leds currentMode].
  rewrite Hl, push_outputs, Hbyte. cbn [ShiftRegister.outputs].
  repeat split; assumption.
Qed.

Lemma loop_enters_logic_witness :
  pressConfirmed (readings 202 LOW 300 0 200 0)
    (set_currentMode 1 (afterSamples [readings 0 LOW 0 0 100 0])) = true /\
  currentMode (set_currentMode 1 (afterSamples [readings 0 LOW 0 0 100 0])) = 1 /\
  0 <= gateIndex (analogRead (readings 202 LOW 300 0 200 0) potPin) <= 3 /\
  exists s' name dec,
    nth_error logicNames
      (Z.to_nat (gateIndex (analogRead (readings 202 LOW 300 0 200 0) potPin)))
    = Some name /\
    loop (readings 202 LOW 300 0 200 0)
      (set_currentMode 1 (afterSamples [readings 0 LOW 0 0 100 0])) = Done tt s' /\
    currentMode s' = 2 /\
    dec_value dec = Some (ShiftRegister.outputs (leds s')) /\
    Lcd.row0 (lcd s')
    = pad16 (bin4 (switchVector (readings 202 LOW 300 0 200 0) / 16) ++ " " ++ name
             ++ " " ++ bin4 (switchVector (readings 202 LOW 300 0 200 0) mod 16)) /\
    Lcd.row1 (lcd s')
    = pad16 ("DEC:" ++ dec ++ " HEX:0x"
             ++ String (hexDigit (ShiftRegister.outputs (leds s'))) EmptyString).
Proof.
  split; [reflexivity | split; [reflexivity |]].
  split; [vm_compute; split; discriminate |].
  apply (loop_enters_logic (readings 202 LOW 300 0 200 0)
           (set_currentMode 1 (afterSamples [readings 0 LOW 0 0 100 0])));
    try reflexivity.
  vm_compute; split; discriminate.
Defined.

(** X16. A press seen at one sample only is never confirmed: when the two
    readings of the counter within a call are no further apart than the
    window, a confirmation at a sample requires that the sample before it
    was a pressed one too, so the button has to be held from one pass of
    [loop()] to the next. *)
Theorem confirmedPress_needs_two_samples (e : Env) (older : list Env) :
  to_ulong (to_ulong (millis2 e) - to_ulong (millis1 e)) <= debounceDelay ->
  confirmedPress (e :: older) = true ->
  level e = LOW /\ lastLevel older = LOW /\ older <> [].
Proof.
  intros Hclock Hev.
  rewrite confirmedPress_latch in Hev.
  apply andb_prop in Hev. destruct Hev as [Hp _].
  unfold pressedLongEnough in Hp. cbn [lastLevel heldFor stableSince] in Hp.
  apply andb_prop in Hp. destruct Hp as [Hl Hh].
  apply Bool.eqb_prop in Hl.
  destruct (Bool.eqb (level e) (lastLevel older)) eqn:E.
  - apply Bool.eqb_prop in E. rewrite Hl in E.
    split; [exact Hl | split; [now symmetry |]].
    intros ->. discriminate.
  - apply Z.gtb_lt in Hh. lia.
Qed.

Lemma confirmedPress_needs_two_samples_witness :
  to_ulong (to_ulong (millis2 (readings 0 LOW 0 0 200 0))
            - to_ulong (millis1 (readings 0 LOW 0 0 200 0))) <= debounceDelay /\
  confirmedPress [readings 0 LOW 0 0 200 0; readings 0 LOW 0 0 100 0] = true /\
  level (readings 0 LOW 0 0 200 0) = LOW /\
  lastLevel [readings 0 LOW 0 0 100 0] = LOW /\
  [readings 0 LOW 0 0 100 0] <> [].
Proof.
  split; [vm_compute; discriminate | split; [reflexivity |]].
  apply (confirmedPress_needs_two_samples (readings 0 LOW 0 0 200 0)
           [readings 0 LOW 0 0 100 0]).
  - vm_compute; discriminate.
  - reflexivity.
Defined.
